(** * Read-only safety guard of the Snowflake MCP server

    A shallow embedding of [SnowflakeDB.execute_query]
    (src/mcp_snowflake_server/db_client.py) and of the query handlers of
    src/mcp_snowflake_server/server.py, together with the properties of the
    first-keyword write check that [execute_query] applies before it touches
    the Snowflake session.

    Python values are modelled as follows.
    - A [str] is the list of its Unicode code points ([list N]).
    - [str.strip], [str.upper] and [str.split] follow CPython: white space is
      the set recognised by [str.isspace], and [upper] maps every code point
      through the full (context free) upper-case mapping of the Unicode
      character database, given below as two tables (Unicode 14.0, the
      database of CPython 3.11).
    - An exception that leaves a function is a [Raise] result; list indexing
      out of range raises [IndexError] as in Python.
    - The Snowflake session, the clock and the UUID generator are external:
      they are operations of an abstract [Runtime], and every call to one of
      them is recorded in a call log. Logging is not modelled. *)

From stdpp Require Import gmap strings list fin_maps.
From Stdlib Require Import NArith Ascii String DecimalString.

Open Scope N_scope.

(** ** Python strings *)

Abbreviation pystr := (list N).

(** An ASCII literal of the source, as a Python string. *)
Definition lit (s : string) : pystr :=
  map N_of_ascii (list_ascii_of_string s).

(** Code points for which [str.isspace] holds; [strip] and [split] without
    arguments treat exactly these as white space. *)
Definition whitespace : list N :=
  [9; 10; 11; 12; 13; 28; 29; 30; 31; 32; 133; 160; 5760;
   8192; 8193; 8194; 8195; 8196; 8197; 8198; 8199; 8200; 8201; 8202;
   8232; 8233; 8239; 8287; 12288].

Definition isspace (c : N) : bool := existsb (N.eqb c) whitespace.

(** *** Upper-casing *)

(** Code points whose upper-case form is a single, different code point. *)
Definition upper_single : list (N * N) :=
  [
    (97, 65); (98, 66); (99, 67); (100, 68); (101, 69); (102, 70);
    (103, 71); (104, 72); (105, 73); (106, 74); (107, 75); (108, 76);
    (109, 77); (110, 78); (111, 79); (112, 80); (113, 81); (114, 82);
    (115, 83); (116, 84); (117, 85); (118, 86); (119, 87); (120, 88);
    (121, 89); (122, 90); (181, 924); (224, 192); (225, 193); (226, 194);
    (227, 195); (228, 196); (229, 197); (230, 198); (231, 199); (232, 200);
    (233, 201); (234, 202); (235, 203); (236, 204); (237, 205); (238, 206);
    (239, 207); (240, 208); (241, 209); (242, 210); (243, 211); (244, 212);
    (245, 213); (246, 214); (248, 216); (249, 217); (250, 218); (251, 219);
    (252, 220); (253, 221); (254, 222); (255, 376); (257, 256); (259, 258);
    (261, 260); (263, 262); (265, 264); (267, 266); (269, 268); (271, 270);
    (273, 272); (275, 274); (277, 276); (279, 278); (281, 280); (283, 282);
    (285, 284); (287, 286); (289, 288); (291, 290); (293, 292); (295, 294);
    (297, 296); (299, 298); (301, 300); (303, 302); (305, 73); (307, 306);
    (309, 308); (311, 310); (314, 313); (316, 315); (318, 317); (320, 319);
    (322, 321); (324, 323); (326, 325); (328, 327); (331, 330); (333, 332);
    (335, 334); (337, 336); (339, 338); (341, 340); (343, 342); (345, 344);
    (347, 346); (349, 348); (351, 350); (353, 352); (355, 354); (357, 356);
    (359, 358); (361, 360); (363, 362); (365, 364); (367, 366); (369, 368);
    (371, 370); (373, 372); (375, 374); (378, 377); (380, 379); (382, 381);
    (383, 83); (384, 579); (387, 386); (389, 388); (392, 391); (396, 395);
    (402, 401); (405, 502); (409, 408); (410, 573); (414, 544); (417, 416);
    (419, 418); (421, 420); (424, 423); (429, 428); (432, 431); (436, 435);
    (438, 437); (441, 440); (445, 444); (447, 503); (453, 452); (454, 452);
    (456, 455); (457, 455); (459, 458); (460, 458); (462, 461); (464, 463);
    (466, 465); (468, 467); (470, 469); (472, 471); (474, 473); (476, 475);
    (477, 398); (479, 478); (481, 480); (483, 482); (485, 484); (487, 486);
    (489, 488); (491, 490); (493, 492); (495, 494); (498, 497); (499, 497);
    (501, 500); (505, 504); (507, 506); (509, 508); (511, 510); (513, 512);
    (515, 514); (517, 516); (519, 518); (521, 520); (523, 522); (525, 524);
    (527, 526); (529, 528); (531, 530); (533, 532); (535, 534); (537, 536);
    (539, 538); (541, 540); (543, 542); (547, 546); (549, 548); (551, 550);
    (553, 552); (555, 554); (557, 556); (559, 558); (561, 560); (563, 562);
    (572, 571); (575, 11390); (576, 11391); (578, 577); (583, 582); (585, 584);
    (587, 586); (589, 588); (591, 590); (592, 11375); (593, 11373); (594, 11376);
    (595, 385); (596, 390); (598, 393); (599, 394); (601, 399); (603, 400);
    (604, 42923); (608, 403); (609, 42924); (611, 404); (613, 42893); (614, 42922);
    (616, 407); (617, 406); (618, 42926); (619, 11362); (620, 42925); (623, 412);
    (625, 11374); (626, 413); (629, 415); (637, 11364); (640, 422); (642, 42949);
    (643, 425); (647, 42929); (648, 430); (649, 580); (650, 433); (651, 434);
    (652, 581); (658, 439); (669, 42930); (670, 42928); (837, 921); (881, 880);
    (883, 882); (887, 886); (891, 1021); (892, 1022); (893, 1023); (940, 902);
    (941, 904); (942, 905); (943, 906); (945, 913); (946, 914); (947, 915);
    (948, 916); (949, 917); (950, 918); (951, 919); (952, 920); (953, 921);
    (954, 922); (955, 923); (956, 924); (957, 925); (958, 926); (959, 927);
    (960, 928); (961, 929); (962, 931); (963, 931); (964, 932); (965, 933);
    (966, 934); (967, 935); (968, 936); (969, 937); (970, 938); (971, 939);
    (972, 908); (973, 910); (974, 911); (976, 914); (977, 920); (981, 934);
    (982, 928); (983, 975); (985, 984); (987, 986); (989, 988); (991, 990);
    (993, 992); (995, 994); (997, 996); (999, 998); (1001, 1000); (1003, 1002);
    (1005, 1004); (1007, 1006); (1008, 922); (1009, 929); (1010, 1017); (1011, 895);
    (1013, 917); (1016, 1015); (1019, 1018); (1072, 1040); (1073, 1041); (1074, 1042);
    (1075, 1043); (1076, 1044); (1077, 1045); (1078, 1046); (1079, 1047); (1080, 1048);
    (1081, 1049); (1082, 1050); (1083, 1051); (1084, 1052); (1085, 1053); (1086, 1054);
    (1087, 1055); (1088, 1056); (1089, 1057); (1090, 1058); (1091, 1059); (1092, 1060);
    (1093, 1061); (1094, 1062); (1095, 1063); (1096, 1064); (1097, 1065); (1098, 1066);
    (1099, 1067); (1100, 1068); (1101, 1069); (1102, 1070); (1103, 1071); (1104, 1024);
    (1105, 1025); (1106, 1026); (1107, 1027); (1108, 1028); (1109, 1029); (1110, 1030);
    (1111, 1031); (1112, 1032); (1113, 1033); (1114, 1034); (1115, 1035); (1116, 1036);
    (1117, 1037); (1118, 1038); (1119, 1039); (1121, 1120); (1123, 1122); (1125, 1124);
    (1127, 1126); (1129, 1128); (1131, 1130); (1133, 1132); (1135, 1134); (1137, 1136);
    (1139, 1138); (1141, 1140); (1143, 1142); (1145, 1144); (1147, 1146); (1149, 1148);
    (1151, 1150); (1153, 1152); (1163, 1162); (1165, 1164); (1167, 1166); (1169, 1168);
    (1171, 1170); (1173, 1172); (1175, 1174); (1177, 1176); (1179, 1178); (1181, 1180);
    (1183, 1182); (1185, 1184); (1187, 1186); (1189, 1188); (1191, 1190); (1193, 1192);
    (1195, 1194); (1197, 1196); (1199, 1198); (1201, 1200); (1203, 1202); (1205, 1204);
    (1207, 1206); (1209, 1208); (1211, 1210); (1213, 1212); (1215, 1214); (1218, 1217);
    (1220, 1219); (1222, 1221); (1224, 1223); (1226, 1225); (1228, 1227); (1230, 1229);
    (1231, 1216); (1233, 1232); (1235, 1234); (1237, 1236); (1239, 1238); (1241, 1240);
    (1243, 1242); (1245, 1244); (1247, 1246); (1249, 1248); (1251, 1250); (1253, 1252);
    (1255, 1254); (1257, 1256); (1259, 1258); (1261, 1260); (1263, 1262); (1265, 1264);
    (1267, 1266); (1269, 1268); (1271, 1270); (1273, 1272); (1275, 1274); (1277, 1276);
    (1279, 1278); (1281, 1280); (1283, 1282); (1285, 1284); (1287, 1286); (1289, 1288);
    (1291, 1290); (1293, 1292); (1295, 1294); (1297, 1296); (1299, 1298); (1301, 1300);
    (1303, 1302); (1305, 1304); (1307, 1306); (1309, 1308); (1311, 1310); (1313, 1312);
    (1315, 1314); (1317, 1316); (1319, 1318); (1321, 1320); (1323, 1322); (1325, 1324);
    (1327, 1326); (1377, 1329); (1378, 1330); (1379, 1331); (1380, 1332); (1381, 1333);
    (1382, 1334); (1383, 1335); (1384, 1336); (1385, 1337); (1386, 1338); (1387, 1339);
    (1388, 1340); (1389, 1341); (1390, 1342); (1391, 1343); (1392, 1344); (1393, 1345);
    (1394, 1346); (1395, 1347); (1396, 1348); (1397, 1349); (1398, 1350); (1399, 1351);
    (1400, 1352); (1401, 1353); (1402, 1354); (1403, 1355); (1404, 1356); (1405, 1357);
    (1406, 1358); (1407, 1359); (1408, 1360); (1409, 1361); (1410, 1362); (1411, 1363);
    (1412, 1364); (1413, 1365); (1414, 1366); (4304, 7312); (4305, 7313); (4306, 7314);
    (4307, 7315); (4308, 7316); (4309, 7317); (4310, 7318); (4311, 7319); (4312, 7320);
    (4313, 7321); (4314, 7322); (4315, 7323); (4316, 7324); (4317, 7325); (4318, 7326);
    (4319, 7327); (4320, 7328); (4321, 7329); (4322, 7330); (4323, 7331); (4324, 7332);
    (4325, 7333); (4326, 7334); (4327, 7335); (4328, 7336); (4329, 7337); (4330, 7338);
    (4331, 7339); (4332, 7340); (4333, 7341); (4334, 7342); (4335, 7343); (4336, 7344);
    (4337, 7345); (4338, 7346); (4339, 7347); (4340, 7348); (4341, 7349); (4342, 7350);
    (4343, 7351); (4344, 7352); (4345, 7353); (4346, 7354); (4349, 7357); (4350, 7358);
    (4351, 7359); (5112, 5104); (5113, 5105); (5114, 5106); (5115, 5107); (5116, 5108);
    (5117, 5109); (7296, 1042); (7297, 1044); (7298, 1054); (7299, 1057); (7300, 1058);
    (7301, 1058); (7302, 1066); (7303, 1122); (7304, 42570); (7545, 42877); (7549, 11363);
    (7566, 42950); (7681, 7680); (7683, 7682); (7685, 7684); (7687, 7686); (7689, 7688);
    (7691, 7690); (7693, 7692); (7695, 7694); (7697, 7696); (7699, 7698); (7701, 7700);
    (7703, 7702); (7705, 7704); (7707, 7706); (7709, 7708); (7711, 7710); (7713, 7712);
    (7715, 7714); (7717, 7716); (7719, 7718); (7721, 7720); (7723, 7722); (7725, 7724);
    (7727, 7726); (7729, 7728); (7731, 7730); (7733, 7732); (7735, 7734); (7737, 7736);
    (7739, 7738); (7741, 7740); (7743, 7742); (7745, 7744); (7747, 7746); (7749, 7748);
    (7751, 7750); (7753, 7752); (7755, 7754); (7757, 7756); (7759, 7758); (7761, 7760);
    (7763, 7762); (7765, 7764); (7767, 7766); (7769, 7768); (7771, 7770); (7773, 7772);
    (7775, 7774); (7777, 7776); (7779, 7778); (7781, 7780); (7783, 7782); (7785, 7784);
    (7787, 7786); (7789, 7788); (7791, 7790); (7793, 7792); (7795, 7794); (7797, 7796);
    (7799, 7798); (7801, 7800); (7803, 7802); (7805, 7804); (7807, 7806); (7809, 7808);
    (7811, 7810); (7813, 7812); (7815, 7814); (7817, 7816); (7819, 7818); (7821, 7820);
    (7823, 7822); (7825, 7824); (7827, 7826); (7829, 7828); (7835, 7776); (7841, 7840);
    (7843, 7842); (7845, 7844); (7847, 7846); (7849, 7848); (7851, 7850); (7853, 7852);
    (7855, 7854); (7857, 7856); (7859, 7858); (7861, 7860); (7863, 7862); (7865, 7864);
    (7867, 7866); (7869, 7868); (7871, 7870); (7873, 7872); (7875, 7874); (7877, 7876);
    (7879, 7878); (7881, 7880); (7883, 7882); (7885, 7884); (7887, 7886); (7889, 7888);
    (7891, 7890); (7893, 7892); (7895, 7894); (7897, 7896); (7899, 7898); (7901, 7900);
    (7903, 7902); (7905, 7904); (7907, 7906); (7909, 7908); (7911, 7910); (7913, 7912);
    (7915, 7914); (7917, 7916); (7919, 7918); (7921, 7920); (7923, 7922); (7925, 7924);
    (7927, 7926); (7929, 7928); (7931, 7930); (7933, 7932); (7935, 7934); (7936, 7944);
    (7937, 7945); (7938, 7946); (7939, 7947); (7940, 7948); (7941, 7949); (7942, 7950);
    (7943, 7951); (7952, 7960); (7953, 7961); (7954, 7962); (7955, 7963); (7956, 7964);
    (7957, 7965); (7968, 7976); (7969, 7977); (7970, 7978); (7971, 7979); (7972, 7980);
    (7973, 7981); (7974, 7982); (7975, 7983); (7984, 7992); (7985, 7993); (7986, 7994);
    (7987, 7995); (7988, 7996); (7989, 7997); (7990, 7998); (7991, 7999); (8000, 8008);
    (8001, 8009); (8002, 8010); (8003, 8011); (8004, 8012); (8005, 8013); (8017, 8025);
    (8019, 8027); (8021, 8029); (8023, 8031); (8032, 8040); (8033, 8041); (8034, 8042);
    (8035, 8043); (8036, 8044); (8037, 8045); (8038, 8046); (8039, 8047); (8048, 8122);
    (8049, 8123); (8050, 8136); (8051, 8137); (8052, 8138); (8053, 8139); (8054, 8154);
    (8055, 8155); (8056, 8184); (8057, 8185); (8058, 8170); (8059, 8171); (8060, 8186);
    (8061, 8187); (8112, 8120); (8113, 8121); (8126, 921); (8144, 8152); (8145, 8153);
    (8160, 8168); (8161, 8169); (8165, 8172); (8526, 8498); (8560, 8544); (8561, 8545);
    (8562, 8546); (8563, 8547); (8564, 8548); (8565, 8549); (8566, 8550); (8567, 8551);
    (8568, 8552); (8569, 8553); (8570, 8554); (8571, 8555); (8572, 8556); (8573, 8557);
    (8574, 8558); (8575, 8559); (8580, 8579); (9424, 9398); (9425, 9399); (9426, 9400);
    (9427, 9401); (9428, 9402); (9429, 9403); (9430, 9404); (9431, 9405); (9432, 9406);
    (9433, 9407); (9434, 9408); (9435, 9409); (9436, 9410); (9437, 9411); (9438, 9412);
    (9439, 9413); (9440, 9414); (9441, 9415); (9442, 9416); (9443, 9417); (9444, 9418);
    (9445, 9419); (9446, 9420); (9447, 9421); (9448, 9422); (9449, 9423); (11312, 11264);
    (11313, 11265); (11314, 11266); (11315, 11267); (11316, 11268); (11317, 11269); (11318, 11270);
    (11319, 11271); (11320, 11272); (11321, 11273); (11322, 11274); (11323, 11275); (11324, 11276);
    (11325, 11277); (11326, 11278); (11327, 11279); (11328, 11280); (11329, 11281); (11330, 11282);
    (11331, 11283); (11332, 11284); (11333, 11285); (11334, 11286); (11335, 11287); (11336, 11288);
    (11337, 11289); (11338, 11290); (11339, 11291); (11340, 11292); (11341, 11293); (11342, 11294);
    (11343, 11295); (11344, 11296); (11345, 11297); (11346, 11298); (11347, 11299); (11348, 11300);
    (11349, 11301); (11350, 11302); (11351, 11303); (11352, 11304); (11353, 11305); (11354, 11306);
    (11355, 11307); (11356, 11308); (11357, 11309); (11358, 11310); (11359, 11311); (11361, 11360);
    (11365, 570); (11366, 574); (11368, 11367); (11370, 11369); (11372, 11371); (11379, 11378);
    (11382, 11381); (11393, 11392); (11395, 11394); (11397, 11396); (11399, 11398); (11401, 11400);
    (11403, 11402); (11405, 11404); (11407, 11406); (11409, 11408); (11411, 11410); (11413, 11412);
    (11415, 11414); (11417, 11416); (11419, 11418); (11421, 11420); (11423, 11422); (11425, 11424);
    (11427, 11426); (11429, 11428); (11431, 11430); (11433, 11432); (11435, 11434); (11437, 11436);
    (11439, 11438); (11441, 11440); (11443, 11442); (11445, 11444); (11447, 11446); (11449, 11448);
    (11451, 11450); (11453, 11452); (11455, 11454); (11457, 11456); (11459, 11458); (11461, 11460);
    (11463, 11462); (11465, 11464); (11467, 11466); (11469, 11468); (11471, 11470); (11473, 11472);
    (11475, 11474); (11477, 11476); (11479, 11478); (11481, 11480); (11483, 11482); (11485, 11484);
    (11487, 11486); (11489, 11488); (11491, 11490); (11500, 11499); (11502, 11501); (11507, 11506);
    (11520, 4256); (11521, 4257); (11522, 4258); (11523, 4259); (11524, 4260); (11525, 4261);
    (11526, 4262); (11527, 4263); (11528, 4264); (11529, 4265); (11530, 4266); (11531, 4267);
    (11532, 4268); (11533, 4269); (11534, 4270); (11535, 4271); (11536, 4272); (11537, 4273);
    (11538, 4274); (11539, 4275); (11540, 4276); (11541, 4277); (11542, 4278); (11543, 4279);
    (11544, 4280); (11545, 4281); (11546, 4282); (11547, 4283); (11548, 4284); (11549, 4285);
    (11550, 4286); (11551, 4287); (11552, 4288); (11553, 4289); (11554, 4290); (11555, 4291);
    (11556, 4292); (11557, 4293); (11559, 4295); (11565, 4301); (42561, 42560); (42563, 42562);
    (42565, 42564); (42567, 42566); (42569, 42568); (42571, 42570); (42573, 42572); (42575, 42574);
    (42577, 42576); (42579, 42578); (42581, 42580); (42583, 42582); (42585, 42584); (42587, 42586);
    (42589, 42588); (42591, 42590); (42593, 42592); (42595, 42594); (42597, 42596); (42599, 42598);
    (42601, 42600); (42603, 42602); (42605, 42604); (42625, 42624); (42627, 42626); (42629, 42628);
    (42631, 42630); (42633, 42632); (42635, 42634); (42637, 42636); (42639, 42638); (42641, 42640);
    (42643, 42642); (42645, 42644); (42647, 42646); (42649, 42648); (42651, 42650); (42787, 42786);
    (42789, 42788); (42791, 42790); (42793, 42792); (42795, 42794); (42797, 42796); (42799, 42798);
    (42803, 42802); (42805, 42804); (42807, 42806); (42809, 42808); (42811, 42810); (42813, 42812);
    (42815, 42814); (42817, 42816); (42819, 42818); (42821, 42820); (42823, 42822); (42825, 42824);
    (42827, 42826); (42829, 42828); (42831, 42830); (42833, 42832); (42835, 42834); (42837, 42836);
    (42839, 42838); (42841, 42840); (42843, 42842); (42845, 42844); (42847, 42846); (42849, 42848);
    (42851, 42850); (42853, 42852); (42855, 42854); (42857, 42856); (42859, 42858); (42861, 42860);
    (42863, 42862); (42874, 42873); (42876, 42875); (42879, 42878); (42881, 42880); (42883, 42882);
    (42885, 42884); (42887, 42886); (42892, 42891); (42897, 42896); (42899, 42898); (42900, 42948);
    (42903, 42902); (42905, 42904); (42907, 42906); (42909, 42908); (42911, 42910); (42913, 42912);
    (42915, 42914); (42917, 42916); (42919, 42918); (42921, 42920); (42933, 42932); (42935, 42934);
    (42937, 42936); (42939, 42938); (42941, 42940); (42943, 42942); (42945, 42944); (42947, 42946);
    (42952, 42951); (42954, 42953); (42961, 42960); (42967, 42966); (42969, 42968); (42998, 42997);
    (43859, 42931); (43888, 5024); (43889, 5025); (43890, 5026); (43891, 5027); (43892, 5028);
    (43893, 5029); (43894, 5030); (43895, 5031); (43896, 5032); (43897, 5033); (43898, 5034);
    (43899, 5035); (43900, 5036); (43901, 5037); (43902, 5038); (43903, 5039); (43904, 5040);
    (43905, 5041); (43906, 5042); (43907, 5043); (43908, 5044); (43909, 5045); (43910, 5046);
    (43911, 5047); (43912, 5048); (43913, 5049); (43914, 5050); (43915, 5051); (43916, 5052);
    (43917, 5053); (43918, 5054); (43919, 5055); (43920, 5056); (43921, 5057); (43922, 5058);
    (43923, 5059); (43924, 5060); (43925, 5061); (43926, 5062); (43927, 5063); (43928, 5064);
    (43929, 5065); (43930, 5066); (43931, 5067); (43932, 5068); (43933, 5069); (43934, 5070);
    (43935, 5071); (43936, 5072); (43937, 5073); (43938, 5074); (43939, 5075); (43940, 5076);
    (43941, 5077); (43942, 5078); (43943, 5079); (43944, 5080); (43945, 5081); (43946, 5082);
    (43947, 5083); (43948, 5084); (43949, 5085); (43950, 5086); (43951, 5087); (43952, 5088);
    (43953, 5089); (43954, 5090); (43955, 5091); (43956, 5092); (43957, 5093); (43958, 5094);
    (43959, 5095); (43960, 5096); (43961, 5097); (43962, 5098); (43963, 5099); (43964, 5100);
    (43965, 5101); (43966, 5102); (43967, 5103); (65345, 65313); (65346, 65314); (65347, 65315);
    (65348, 65316); (65349, 65317); (65350, 65318); (65351, 65319); (65352, 65320); (65353, 65321);
    (65354, 65322); (65355, 65323); (65356, 65324); (65357, 65325); (65358, 65326); (65359, 65327);
    (65360, 65328); (65361, 65329); (65362, 65330); (65363, 65331); (65364, 65332); (65365, 65333);
    (65366, 65334); (65367, 65335); (65368, 65336); (65369, 65337); (65370, 65338); (66600, 66560);
    (66601, 66561); (66602, 66562); (66603, 66563); (66604, 66564); (66605, 66565); (66606, 66566);
    (66607, 66567); (66608, 66568); (66609, 66569); (66610, 66570); (66611, 66571); (66612, 66572);
    (66613, 66573); (66614, 66574); (66615, 66575); (66616, 66576); (66617, 66577); (66618, 66578);
    (66619, 66579); (66620, 66580); (66621, 66581); (66622, 66582); (66623, 66583); (66624, 66584);
    (66625, 66585); (66626, 66586); (66627, 66587); (66628, 66588); (66629, 66589); (66630, 66590);
    (66631, 66591); (66632, 66592); (66633, 66593); (66634, 66594); (66635, 66595); (66636, 66596);
    (66637, 66597); (66638, 66598); (66639, 66599); (66776, 66736); (66777, 66737); (66778, 66738);
    (66779, 66739); (66780, 66740); (66781, 66741); (66782, 66742); (66783, 66743); (66784, 66744);
    (66785, 66745); (66786, 66746); (66787, 66747); (66788, 66748); (66789, 66749); (66790, 66750);
    (66791, 66751); (66792, 66752); (66793, 66753); (66794, 66754); (66795, 66755); (66796, 66756);
    (66797, 66757); (66798, 66758); (66799, 66759); (66800, 66760); (66801, 66761); (66802, 66762);
    (66803, 66763); (66804, 66764); (66805, 66765); (66806, 66766); (66807, 66767); (66808, 66768);
    (66809, 66769); (66810, 66770); (66811, 66771); (66967, 66928); (66968, 66929); (66969, 66930);
    (66970, 66931); (66971, 66932); (66972, 66933); (66973, 66934); (66974, 66935); (66975, 66936);
    (66976, 66937); (66977, 66938); (66979, 66940); (66980, 66941); (66981, 66942); (66982, 66943);
    (66983, 66944); (66984, 66945); (66985, 66946); (66986, 66947); (66987, 66948); (66988, 66949);
    (66989, 66950); (66990, 66951); (66991, 66952); (66992, 66953); (66993, 66954); (66995, 66956);
    (66996, 66957); (66997, 66958); (66998, 66959); (66999, 66960); (67000, 66961); (67001, 66962);
    (67003, 66964); (67004, 66965); (68800, 68736); (68801, 68737); (68802, 68738); (68803, 68739);
    (68804, 68740); (68805, 68741); (68806, 68742); (68807, 68743); (68808, 68744); (68809, 68745);
    (68810, 68746); (68811, 68747); (68812, 68748); (68813, 68749); (68814, 68750); (68815, 68751);
    (68816, 68752); (68817, 68753); (68818, 68754); (68819, 68755); (68820, 68756); (68821, 68757);
    (68822, 68758); (68823, 68759); (68824, 68760); (68825, 68761); (68826, 68762); (68827, 68763);
    (68828, 68764); (68829, 68765); (68830, 68766); (68831, 68767); (68832, 68768); (68833, 68769);
    (68834, 68770); (68835, 68771); (68836, 68772); (68837, 68773); (68838, 68774); (68839, 68775);
    (68840, 68776); (68841, 68777); (68842, 68778); (68843, 68779); (68844, 68780); (68845, 68781);
    (68846, 68782); (68847, 68783); (68848, 68784); (68849, 68785); (68850, 68786); (71872, 71840);
    (71873, 71841); (71874, 71842); (71875, 71843); (71876, 71844); (71877, 71845); (71878, 71846);
    (71879, 71847); (71880, 71848); (71881, 71849); (71882, 71850); (71883, 71851); (71884, 71852);
    (71885, 71853); (71886, 71854); (71887, 71855); (71888, 71856); (71889, 71857); (71890, 71858);
    (71891, 71859); (71892, 71860); (71893, 71861); (71894, 71862); (71895, 71863); (71896, 71864);
    (71897, 71865); (71898, 71866); (71899, 71867); (71900, 71868); (71901, 71869); (71902, 71870);
    (71903, 71871); (93792, 93760); (93793, 93761); (93794, 93762); (93795, 93763); (93796, 93764);
    (93797, 93765); (93798, 93766); (93799, 93767); (93800, 93768); (93801, 93769); (93802, 93770);
    (93803, 93771); (93804, 93772); (93805, 93773); (93806, 93774); (93807, 93775); (93808, 93776);
    (93809, 93777); (93810, 93778); (93811, 93779); (93812, 93780); (93813, 93781); (93814, 93782);
    (93815, 93783); (93816, 93784); (93817, 93785); (93818, 93786); (93819, 93787); (93820, 93788);
    (93821, 93789); (93822, 93790); (93823, 93791); (125218, 125184); (125219, 125185); (125220, 125186);
    (125221, 125187); (125222, 125188); (125223, 125189); (125224, 125190); (125225, 125191); (125226, 125192);
    (125227, 125193); (125228, 125194); (125229, 125195); (125230, 125196); (125231, 125197); (125232, 125198);
    (125233, 125199); (125234, 125200); (125235, 125201); (125236, 125202); (125237, 125203); (125238, 125204);
    (125239, 125205); (125240, 125206); (125241, 125207); (125242, 125208); (125243, 125209); (125244, 125210);
    (125245, 125211); (125246, 125212); (125247, 125213); (125248, 125214); (125249, 125215); (125250, 125216);
    (125251, 125217)
  ].

(** Code points whose upper-case form is a sequence of code points. *)
Definition upper_special : list (N * list N) :=
  [
    (223, [83; 83]); (329, [700; 78]); (496, [74; 780]);
    (912, [921; 776; 769]); (944, [933; 776; 769]); (1415, [1333; 1362]);
    (7830, [72; 817]); (7831, [84; 776]); (7832, [87; 778]);
    (7833, [89; 778]); (7834, [65; 702]); (8016, [933; 787]);
    (8018, [933; 787; 768]); (8020, [933; 787; 769]); (8022, [933; 787; 834]);
    (8064, [7944; 921]); (8065, [7945; 921]); (8066, [7946; 921]);
    (8067, [7947; 921]); (8068, [7948; 921]); (8069, [7949; 921]);
    (8070, [7950; 921]); (8071, [7951; 921]); (8072, [7944; 921]);
    (8073, [7945; 921]); (8074, [7946; 921]); (8075, [7947; 921]);
    (8076, [7948; 921]); (8077, [7949; 921]); (8078, [7950; 921]);
    (8079, [7951; 921]); (8080, [7976; 921]); (8081, [7977; 921]);
    (8082, [7978; 921]); (8083, [7979; 921]); (8084, [7980; 921]);
    (8085, [7981; 921]); (8086, [7982; 921]); (8087, [7983; 921]);
    (8088, [7976; 921]); (8089, [7977; 921]); (8090, [7978; 921]);
    (8091, [7979; 921]); (8092, [7980; 921]); (8093, [7981; 921]);
    (8094, [7982; 921]); (8095, [7983; 921]); (8096, [8040; 921]);
    (8097, [8041; 921]); (8098, [8042; 921]); (8099, [8043; 921]);
    (8100, [8044; 921]); (8101, [8045; 921]); (8102, [8046; 921]);
    (8103, [8047; 921]); (8104, [8040; 921]); (8105, [8041; 921]);
    (8106, [8042; 921]); (8107, [8043; 921]); (8108, [8044; 921]);
    (8109, [8045; 921]); (8110, [8046; 921]); (8111, [8047; 921]);
    (8114, [8122; 921]); (8115, [913; 921]); (8116, [902; 921]);
    (8118, [913; 834]); (8119, [913; 834; 921]); (8124, [913; 921]);
    (8130, [8138; 921]); (8131, [919; 921]); (8132, [905; 921]);
    (8134, [919; 834]); (8135, [919; 834; 921]); (8140, [919; 921]);
    (8146, [921; 776; 768]); (8147, [921; 776; 769]); (8150, [921; 834]);
    (8151, [921; 776; 834]); (8162, [933; 776; 768]); (8163, [933; 776; 769]);
    (8164, [929; 787]); (8166, [933; 834]); (8167, [933; 776; 834]);
    (8178, [8186; 921]); (8179, [937; 921]); (8180, [911; 921]);
    (8182, [937; 834]); (8183, [937; 834; 921]); (8188, [937; 921]);
    (64256, [70; 70]); (64257, [70; 73]); (64258, [70; 76]);
    (64259, [70; 70; 73]); (64260, [70; 70; 76]); (64261, [83; 84]);
    (64262, [83; 84]); (64275, [1348; 1350]); (64276, [1348; 1333]);
    (64277, [1348; 1339]); (64278, [1358; 1350]); (64279, [1348; 1341])
  ].

Fixpoint assoc {V : Type} (c : N) (table : list (N * V)) : option V :=
  match table with
  | [] => None
  | (k, v) :: table' => if N.eqb k c then Some v else assoc c table'
  end.

(** The upper-case form of one code point. *)
Definition toupper (c : N) : pystr :=
  match assoc c upper_special with
  | Some us => us
  | None =>
      match assoc c upper_single with
      | Some u => [u]
      | None => [c]
      end
  end.

(** [str.upper()] *)
Definition upper (s : pystr) : pystr := flat_map toupper s.

(** *** Stripping and splitting *)

(** [str.lstrip()] *)
Fixpoint lstrip (s : pystr) : pystr :=
  match s with
  | [] => []
  | c :: s' => if isspace c then lstrip s' else s
  end.

(** [str.rstrip()] *)
Definition rstrip (s : pystr) : pystr := rev (lstrip (rev s)).

(** [str.strip()] *)
Definition strip (s : pystr) : pystr := rstrip (lstrip s).

(** [str.split()] without arguments: the maximal runs of characters that are
    not white space. [word] holds, reversed, the characters of the run being
    read. *)
Fixpoint split_from (word : pystr) (s : pystr) : list pystr :=
  match s with
  | [] => match word with [] => [] | _ => [rev word] end
  | c :: s' =>
      if isspace c
      then match word with
           | [] => split_from [] s'
           | _ => rev word :: split_from [] s'
           end
      else split_from (c :: word) s'
  end.

Definition split (s : pystr) : list pystr := split_from [] s.

(** ** Exceptions and results *)

Inductive exn : Type :=
  | ValueError (msg : pystr)
  | IndexError (msg : pystr)
  | AttributeError (msg : pystr)
  | KeyError (msg : pystr)
  | ExternalError (msg : pystr).

(** [str(e)] *)
Definition str_of_exn (e : exn) : pystr :=
  match e with
  | ValueError m | IndexError m | AttributeError m
  | KeyError m | ExternalError m => m
  end.

Inductive result (A : Type) : Type :=
  | Ok (a : A)
  | Raise (e : exn).
Arguments Ok {A} a.
Arguments Raise {A} e.

(** [l[0]] *)
Definition getitem0 {A : Type} (l : list A) : result A :=
  match l with
  | x :: _ => Ok x
  | [] => Raise (IndexError (lit "list index out of range"))
  end.

(** ** The write check of [execute_query] *)

(** [write_keywords] of [execute_query]. *)
Definition write_keywords : list pystr :=
  map lit ["INSERT"; "UPDATE"; "DELETE"; "CREATE"; "DROP"; "ALTER";
           "TRUNCATE"; "MERGE"].

(** [query_upper = query.strip().upper()] *)
Definition query_upper (query : pystr) : pystr := upper (strip query).

(** [first_word = query_upper.split()[0] if query_upper else ''] *)
Definition first_word (query : pystr) : result pystr :=
  match query_upper query with
  | [] => Ok []
  | _ :: _ => getitem0 (split (query_upper query))
  end.

(** [first_word in write_keywords] *)
Definition is_write_keyword (w : pystr) : bool :=
  bool_decide (w ∈ write_keywords).

(** The message of the [ValueError] raised for a blocked statement. *)
Definition safety_message (w : pystr) : pystr :=
  lit "SAFETY: " ++ w
    ++ lit " operations are not allowed in this read-only server".

(** The safety check that opens [execute_query]: it returns normally when
    the query may proceed and raises otherwise. *)
Definition safety_check (query : pystr) : result unit :=
  match first_word query with
  | Raise e => Raise e
  | Ok w =>
      if is_write_keyword w then Raise (ValueError (safety_message w))
      else Ok ()
  end.

(** The check read as a classifier: what it decides about a statement, and
    the keyword that made it decide so. *)
Record DetectionResult : Type := {
  containsWrite : bool;
  matchedKeyword : option pystr
}.

Definition classify (query : pystr) : result DetectionResult :=
  match first_word query with
  | Raise e => Raise e
  | Ok w =>
      Ok (if is_write_keyword w
          then {| containsWrite := true; matchedKeyword := Some w |}
          else {| containsWrite := false; matchedKeyword := None |})
  end.

(** ** The Snowflake connection object *)

(** A value of the [connection_config] dictionary. *)
Inductive cfgval : Type :=
  | CfgStr (s : pystr)
  | CfgBool (b : bool)
  | CfgInt (z : Z).

(** [v.upper()] for a configuration value: only a [str] has the method. *)
Definition cfg_upper (v : cfgval) : result pystr :=
  match v with
  | CfgStr s => Ok (upper s)
  | CfgBool _ =>
      Raise (AttributeError (lit "'bool' object has no attribute 'upper'"))
  | CfgInt _ =>
      Raise (AttributeError (lit "'int' object has no attribute 'upper'"))
  end.

(** The state of the [asyncio] task created by [start_init_connection], as
    [Task.done()] reports it. The task body, [_init_database], never
    suspends, so the task is either not started or finished. *)
Inductive Task : Type :=
  | TaskPending
  | TaskDone.

(** What lies outside the process: the Snowpark library with the Snowflake
    account behind it, the clock and the UUID generator. Each operation
    takes and returns the state of that outside world. *)
Class Runtime : Type := {
  World : Type;
  Session : Type;
  Time : Type;
  Rows : Type;
  (** [Session.builder.configs(config).create()] *)
  session_create : gmap string cfgval → World → result Session * World;
  (** [session.sql(text)], its data frame dropped *)
  session_sql : Session → pystr → World → result unit * World;
  (** [session.sql(text).to_pandas().to_dict(orient="records")] *)
  sql_to_records : Session → pystr → World → result Rows * World;
  (** [time.time()] *)
  time_time : World → Time * World;
  (** the initial [auth_time], [0] *)
  time_zero : Time;
  (** [now - auth_time > AUTH_EXPIRATION_TIME] *)
  auth_expired : Time → Time → bool;
  (** [str(uuid.uuid4())] *)
  uuid4 : World → pystr * World
}.

(** One entry of the call log. *)
Inductive Call : Type :=
  | CallSessionCreate
  | CallSessionSql (text : pystr)
  | CallSqlToRecords (text : pystr)
  | CallTime
  | CallUuid4.

Section Server.

Context {R : Runtime}.

(** The attributes of a [SnowflakeDB] object. *)
Record SnowflakeDB : Type := {
  connection_config : gmap string cfgval;
  session : option Session;
  insights : list pystr;
  auth_time : Time;
  init_task : option Task
}.

(** [SnowflakeDB.__init__] *)
Definition SnowflakeDB_init (config : gmap string cfgval) : SnowflakeDB :=
  {| connection_config :=
       <["cache_mfa_token" := CfgBool true]>
         (<["authenticator" := CfgStr (lit "externalbrowser")]> config);
     session := None;
     insights := [];
     auth_time := time_zero;
     init_task := None |}.

(** The server keeps one [SnowflakeDB] object, shared by all handlers. A
    state is that object, the outside world and the log of the calls made
    to the outside world so far (latest first). *)
Record State : Type := {
  db : SnowflakeDB;
  world : World;
  calls : list Call
}.

(** A computation that may change the state and may raise. An exception
    keeps the changes made before it was raised. *)
Definition M (A : Type) : Type := State → result A * State.

Definition ret {A : Type} (a : A) : M A := λ st, (Ok a, st).

Definition raise {A : Type} (e : exn) : M A := λ st, (Raise e, st).

Definition bind {A B : Type} (m : M A) (k : A → M B) : M B :=
  λ st, match m st with
        | (Ok a, st') => k a st'
        | (Raise e, st') => (Raise e, st')
        end.

(** [try: m except Exception as e: handler e] *)
Definition try_except {A : Type} (m : M A) (handler : exn → M A) : M A :=
  λ st, match m st with
        | (Ok a, st') => (Ok a, st')
        | (Raise e, st') => handler e st'
        end.

Definition lift {A : Type} (r : result A) : M A := λ st, (r, st).

Definition get_db : M SnowflakeDB := λ st, (Ok (db st), st).

Definition set_db (d : SnowflakeDB) : M unit :=
  λ st, (Ok (), {| db := d; world := world st; calls := calls st |}).

(** A call to the outside world, logged. *)
Definition call {A : Type} (c : Call) (op : World → result A * World)
  : M A :=
  λ st, let (r, w) := op (world st) in
        (r, {| db := db st; world := w; calls := c :: calls st |}).

Definition set_session (s : Session) : M unit :=
  bind get_db (λ d,
  set_db {| connection_config := connection_config d;
            session := Some s;
            insights := insights d;
            auth_time := auth_time d;
            init_task := init_task d |}).

Definition set_auth_time (t : Time) : M unit :=
  bind get_db (λ d,
  set_db {| connection_config := connection_config d;
            session := session d;
            insights := insights d;
            auth_time := t;
            init_task := init_task d |}).

Definition set_init_task (t : option Task) : M unit :=
  bind get_db (λ d,
  set_db {| connection_config := connection_config d;
            session := session d;
            insights := insights d;
            auth_time := auth_time d;
            init_task := t |}).

End Server.

#[global] Instance M_ret {R : Runtime} : MRet M := @ret R.
#[global] Instance M_bind {R : Runtime} : MBind M := λ A B k m, bind m k.

Section Operations.

Context {R : Runtime}.

(** [SnowflakeDB._init_database] *)
Definition _init_database : M unit :=
  try_except
    (d ← get_db;
     (* the inner [try] only logs a failed session creation and re-raises *)
     s ← call CallSessionCreate (session_create (connection_config d));
     set_session s;;
     match connection_config d !! "warehouse" with
     | Some v =>
         w ← lift (cfg_upper v);
         call (CallSessionSql (lit "USE WAREHOUSE " ++ w))
              (session_sql s (lit "USE WAREHOUSE " ++ w))
     | None => ret ()
     end;;
     now ← call CallTime (λ w, let (t, w') := time_time w in (Ok t, w'));
     set_auth_time now)
    (λ e, raise (ValueError
                   (lit "Failed to connect to Snowflake database: "
                      ++ str_of_exn e))).

(** [await self.init_task] on a task that is not done: the task body runs,
    the task is done afterwards, and its exception, if any, is raised at
    the [await]. *)
Definition await_init_task : M unit :=
  try_except
    (_init_database;; set_init_task (Some TaskDone))
    (λ e, set_init_task (Some TaskDone);; raise e).

(** [SnowflakeDB.execute_query] *)
Definition execute_query (query : pystr) : M (Rows * pystr) :=
  (* SAFETY CHECK: Block common write operations *)
  lift (safety_check query);;
  d ← get_db;
  match init_task d with
  | Some TaskPending => await_init_task
  | _ =>
      match session d with
      | None => _init_database
      | Some _ =>
          now ← call CallTime (λ w, let (t, w') := time_time w in (Ok t, w'));
          if auth_expired now (auth_time d) then _init_database else ret ()
      end
  end;;
  (* the [except] clause only logs and re-raises *)
  d ← get_db;
  match session d with
  | None =>
      raise (AttributeError
               (lit "'NoneType' object has no attribute 'sql'"))
  | Some s =>
      result_rows ← call (CallSqlToRecords query) (sql_to_records s query);
      data_id ← call CallUuid4 (λ w, let (u, w') := uuid4 w in (Ok u, w'));
      ret (result_rows, data_id)
  end.

(** [SnowflakeDB.start_init_connection]: the initialisation is scheduled as
    a task, which has not run yet when the method returns. *)
Definition start_init_connection : M unit := set_init_task (Some TaskPending).

(** [SnowflakeDB.add_insight] *)
Definition add_insight (insight : pystr) : M unit :=
  d ← get_db;
  set_db {| connection_config := connection_config d;
            session := session d;
            insights := insights d ++ [insight];
            auth_time := auth_time d;
            init_task := init_task d |}.

(** ** The tool handlers of server.py *)

(** [not arguments or "query" not in arguments] *)
Definition missing_query (arguments : option (gmap string pystr)) : bool :=
  match arguments with
  | None => true
  | Some a => bool_decide (a = ∅) || bool_decide (a !! "query" = None)
  end.

(** [arguments["query"]] *)
Definition getitem_query (arguments : option (gmap string pystr))
  : result pystr :=
  match arguments with
  | None =>
      Raise (AttributeError (lit "'NoneType' object is not subscriptable"))
  | Some a =>
      match a !! "query" with
      | Some q => Ok q
      | None => Raise (KeyError (lit "'query'"))
      end
  end.

(** [handle_read_query]. The write detector is an argument of the handler:
    [analyze_query] stands for [write_detector.analyze_query], of which the
    handler reads the entry [contains_write]. The handler returns the rows
    and their [data_id]; their YAML and JSON renderings are not modelled. *)
Definition handle_read_query (arguments : option (gmap string pystr))
    (analyze_query : pystr → DetectionResult) : M (Rows * pystr) :=
  if missing_query arguments then
    raise (ValueError (lit "Missing query argument"))
  else
    query ← lift (getitem_query arguments);
    if containsWrite (analyze_query query) then
      raise (ValueError
               (lit "Calls to read_query should not contain write operations"))
    else
      execute_query query.

(** [handle_write_query]: PERMANENTLY DISABLED FOR SAFETY *)
Definition handle_write_query (arguments : option (gmap string pystr))
    (analyze_query : pystr → DetectionResult) (allow_write : bool)
  : M (list pystr) :=
  raise (ValueError
           (lit "Write operations are permanently disabled in this server for safety")).

(** [handle_create_table]: PERMANENTLY DISABLED FOR SAFETY *)
Definition handle_create_table (arguments : option (gmap string pystr))
    (analyze_query : pystr → DetectionResult) (allow_write : bool)
  : M (list pystr) :=
  raise (ValueError
           (lit "Table creation is permanently disabled in this server for safety")).

End Operations.

(** ** Vocabulary of the properties *)

(** The mutating keywords that the specification lists for the detector
    (section 4.1); [write_keywords] above is the list of the code. *)
Definition spec_mutating_keywords : list pystr :=
  map lit ["INSERT"; "UPDATE"; "DELETE"; "CREATE"; "DROP"; "ALTER";
           "TRUNCATE"; "MERGE"; "GRANT"; "REVOKE"; "CALL"].

(** A string of white space only (the empty string included). *)
Definition isblank (s : pystr) : bool := forallb isspace s.

(** A string with no white space in it. *)
Definition solid (s : pystr) : bool := forallb (λ c, negb (isspace c)) s.

(** A token: one or more characters, none of them white space. *)
Definition istoken (s : pystr) : bool :=
  match s with
  | [] => false
  | _ :: _ => solid s
  end.

(** What may follow a token: nothing, or text that opens with white
    space. *)
Definition at_boundary (s : pystr) : bool :=
  match s with
  | [] => true
  | c :: _ => isspace c
  end.

(** [s.startswith(p)] *)
Fixpoint startswith (s p : pystr) {struct p} : bool :=
  match p, s with
  | [], _ => true
  | _ :: _, [] => false
  | a :: p', b :: s' => N.eqb a b && startswith s' p'
  end.

(** [sub in s] *)
Fixpoint contains (s sub : pystr) : bool :=
  startswith s sub
  || match s with
     | [] => false
     | _ :: s' => contains s' sub
     end.

(** The result for a statement in which the check finds no write. *)
Definition no_write : DetectionResult :=
  {| containsWrite := false; matchedKeyword := None |}.

(** The result for a statement blocked because of keyword [w]. *)
Definition write_of (w : pystr) : DetectionResult :=
  {| containsWrite := true; matchedKeyword := Some w |}.

(** A detector for [handle_read_query] that answers as the check of
    [execute_query] does. *)
Definition guard_detector (query : pystr) : DetectionResult :=
  match classify query with
  | Ok r => r
  | Raise _ => no_write
  end.

(** A small simulated outside world, on which the model can be run: the
    world is a clock that ticks at every reading, every connection attempt
    succeeds and every query returns no rows. *)
Definition sim_runtime : Runtime :=
  {| World := Z;
     Session := unit;
     Time := Z;
     Rows := list (list (pystr * pystr));
     session_create := λ _ w, (Ok (), w);
     session_sql := λ _ _ w, (Ok (), w);
     sql_to_records := λ _ _ w, (Ok [], w);
     time_time := λ w, (w, (w + 1)%Z);
     time_zero := 0%Z;
     auth_expired := λ now t, (1800 <? now - t)%Z;
     uuid4 := λ w, (lit "00000000-0000-4000-8000-000000000000", w) |}.

(** The state in which the server starts to serve requests in the simulated
    world: the connection object was constructed and its initialisation
    scheduled, as [main] does. *)
Definition sim_state (w : Z) : @State sim_runtime :=
  snd (@start_init_connection sim_runtime
         {| db := @SnowflakeDB_init sim_runtime
                    {["warehouse" := CfgStr (lit "compute_wh")]};
            world := w;
            calls := [] |}).

(** A simulated outside world without a Snowflake account: every
    connection attempt fails. *)
Definition offline_runtime : Runtime :=
  {| World := Z;
     Session := unit;
     Time := Z;
     Rows := list (list (pystr * pystr));
     session_create :=
       λ _ w, (Raise (ExternalError (lit "browser authentication failed")), w);
     session_sql := λ _ _ w, (Ok (), w);
     sql_to_records := λ _ _ w, (Ok [], w);
     time_time := λ w, (w, (w + 1)%Z);
     time_zero := 0%Z;
     auth_expired := λ now t, (1800 <? now - t)%Z;
     uuid4 := λ w, (lit "00000000-0000-4000-8000-000000000000", w) |}.

(** ** More Python strings *)

(** [sep.join(parts)] *)
Fixpoint join (sep : pystr) (parts : list pystr) : pystr :=
  match parts with
  | [] => []
  | [p] => p
  | p :: ps => p ++ sep ++ join sep ps
  end.

(** [str(n)] for a length *)
Definition str_of_nat (n : nat) : pystr :=
  lit (NilZero.string_of_uint (Nat.to_uint n)).

(** [str(b)] *)
Definition str_of_bool (b : bool) : pystr :=
  if b then lit "True" else lit "False".

(** [s.split(sep)] for a separator of one character: the pieces between
    the occurrences of [sep], empty pieces included. [word] holds,
    reversed, the characters of the piece being read. *)
Fixpoint split_at (sep : N) (word : pystr) (s : pystr) : list pystr :=
  match s with
  | [] => [rev word]
  | c :: s' =>
      if N.eqb c sep then rev word :: split_at sep [] s'
      else split_at sep (c :: word) s'
  end.

Definition split_sep (sep : N) (s : pystr) : list pystr := split_at sep [] s.

(** The full stop, the separator of a qualified table name. *)
Definition dot : N := 46.

(** The line feed. *)
Definition newline : pystr := [10].

(** ** The memo of insights *)

Section Memo.

Context {R : Runtime}.

(** [SnowflakeDB.get_memo] *)
Definition get_memo (d : SnowflakeDB) : pystr :=
  match insights d with
  | [] => lit "No data insights have been discovered yet."
  | _ :: _ =>
      ([240; 376; 8220; 352] ++ lit " Data Intelligence Memo "
         ++ [240; 376; 8220; 352] ++ newline ++ newline)
      ++ (lit "Key Insights Discovered:" ++ newline ++ newline)
      ++ join newline (map (λ insight, lit "- " ++ insight) (insights d))
      ++ (if (1 <? List.length (insights d))%nat
          then newline ++ newline ++ lit "Summary:" ++ newline
               ++ lit "Analysis has revealed "
               ++ str_of_nat (List.length (insights d))
               ++ lit " key data insights that suggest opportunities for strategic optimization and growth."
          else [])
  end.

End Memo.

(** ** Table descriptions *)

(** [not arguments or key not in arguments] *)
Definition missing_argument (key : string)
    (arguments : option (gmap string pystr)) : bool :=
  match arguments with
  | None => true
  | Some a => bool_decide (a = ∅) || bool_decide (a !! key = None)
  end.

(** [arguments[key]] *)
Definition getitem (key : string) (arguments : option (gmap string pystr))
  : result pystr :=
  match arguments with
  | None =>
      Raise (AttributeError (lit "'NoneType' object is not subscriptable"))
  | Some a =>
      match a !! key with
      | Some v => Ok v
      | None => Raise (KeyError (lit "'" ++ lit key ++ lit "'"))
      end
  end.

(** The query of [handle_describe_table] for upper-cased names. *)
Definition describe_table_query (database_name schema_name table_name : pystr)
  : pystr :=
  newline
  ++ lit "        SELECT column_name, column_default, is_nullable, data_type, comment "
  ++ newline
  ++ lit "        FROM " ++ database_name ++ lit ".information_schema.columns "
  ++ newline
  ++ lit "        WHERE table_schema = '" ++ schema_name
  ++ lit "' AND table_name = '" ++ table_name ++ lit "'"
  ++ newline
  ++ lit "    ".

Section Describe.

Context {R : Runtime}.

(** The [output] dictionary of a handler that returns data. A handler
    returns it twice, as YAML text and as an embedded JSON resource; the
    two renderings are not modelled. *)
Record DataOutput : Type := {
  out_data_id : pystr;
  out_database : option pystr;
  out_schema : option pystr;
  out_table : option pystr;
  out_data : Rows
}.

(** [handle_describe_table] *)
Definition handle_describe_table (arguments : option (gmap string pystr))
  : M DataOutput :=
  if missing_argument "table_name" arguments then
    raise (ValueError (lit "Missing table_name argument"))
  else
    table_spec ← lift (getitem "table_name" arguments);
    match split_sep dot table_spec with
    | database :: schema :: table :: _ =>
        let database_name := upper database in
        let schema_name := upper schema in
        let table_name := upper table in
        r ← execute_query
              (describe_table_query database_name schema_name table_name);
        ret {| out_data_id := snd r;
               out_database := Some database_name;
               out_schema := Some schema_name;
               out_table := Some table_name;
               out_data := fst r |}
    | _ =>
        raise (ValueError
                 (lit "Table name must be fully qualified as 'database.schema.table'"))
    end.

(** ** Tools and their dispatch *)

(** What a tool call returns: a text, or the two renderings of an
    [output] dictionary. *)
Inductive Content : Type :=
  | TextContent (text : pystr)
  | DataContent (output : DataOutput).

(** The handlers of the registered tools. *)
Inductive Handler : Type :=
  | health_check
  | describe_table
  | read_query
  | query_substack_analytics
  | query_substack_analytics_specifics
  | query_substack_codebase.

(** A [Tool], without its description and input schema. *)
Record Tool : Type := {
  tool_name : pystr;
  tool_handler : Handler;
  tool_tags : list pystr
}.

(** [all_tools] of [main]. No tool is given tags, so each has the default,
    the empty list. *)
Definition all_tools : list Tool :=
  [ {| tool_name := lit "health_check"; tool_handler := health_check;
       tool_tags := [] |};
    {| tool_name := lit "describe_table"; tool_handler := describe_table;
       tool_tags := [] |};
    {| tool_name := lit "read_query"; tool_handler := read_query;
       tool_tags := [] |};
    {| tool_name := lit "query_substack_analytics";
       tool_handler := query_substack_analytics; tool_tags := [] |};
    {| tool_name := lit "query_substack_analytics_specifics";
       tool_handler := query_substack_analytics_specifics;
       tool_tags := [] |};
    {| tool_name := lit "query_substack_codebase";
       tool_handler := query_substack_codebase; tool_tags := [] |} ].

(** [exclude_tags] of [main] *)
Definition exclude_tags (allow_write : bool) : list pystr :=
  if allow_write then [] else [lit "write"].

(** [allowed_tools] of [main] *)
Definition allowed_tools (allow_write : bool) (exclude_tools : list pystr)
  : list Tool :=
  List.filter
    (λ tool,
       negb (bool_decide (tool_name tool ∈ exclude_tools))
       && negb (existsb (λ tag, bool_decide (tag ∈ exclude_tags allow_write))
                  (tool_tags tool)))
    all_tools.

(** The names for which [handle_call_tool] passes [exclusion_config] to the
    handler. *)
Definition listing_names : list pystr :=
  [lit "list_databases"; lit "list_schemas"; lit "list_tables"].

(** The Python name of a handler, as an error message shows it. *)
Definition handler_qualname (h : Handler) : pystr :=
  match h with
  | health_check => lit "main.<locals>.<lambda>"
  | describe_table => lit "handle_describe_table"
  | read_query => lit "handle_read_query"
  | query_substack_analytics => lit "handle_analytics_codebase_query"
  | query_substack_analytics_specifics =>
      lit "handle_analytics_specifics_codebase_query"
  | query_substack_codebase => lit "handle_general_codebase_query"
  end.

(** [handle_tool_errors]: an exception of the wrapped function becomes an
    error text. *)
Definition handle_tool_errors (func : M (list Content)) : M (list Content) :=
  try_except func
    (λ e, ret [TextContent (lit "Error: " ++ str_of_exn e)]).

(** The three handlers of claude_code.py run an external program. They
    receive the arguments of the call and nothing else. *)
Variable codebase_query : Handler → option (gmap string pystr)
                          → M (list Content).

(** The text that the handler of [health_check] builds. *)
Definition health_check_text (d : SnowflakeDB) : pystr :=
  lit "Server is running. Session active: "
  ++ str_of_bool (match session d with
                  | Some _ => true
                  | None => false
                  end).

(** [await handler(arguments, db, write_detector, allow_write, server)].
    The handler of [health_check] is a plain function, not a coroutine
    function: the call returns its list of contents, and [await] applied to
    a list raises a [TypeError]. A [TypeError] of the interpreter is
    modelled as an [ExternalError] with its message. *)
Definition run_handler (h : Handler)
    (arguments : option (gmap string pystr))
    (analyze_query : pystr → DetectionResult) (allow_write : bool)
  : M (list Content) :=
  match h with
  | health_check =>
      d ← get_db;
      let _contents := [TextContent (health_check_text d)] in
      raise (ExternalError
               (lit "object list can't be used in 'await' expression"))
  | describe_table =>
      output ← handle_describe_table arguments;
      ret [DataContent output]
  | read_query =>
      r ← handle_read_query arguments analyze_query;
      ret [DataContent {| out_data_id := snd r;
                          out_database := None;
                          out_schema := None;
                          out_table := None;
                          out_data := fst r |}]
  | _ => codebase_query h arguments
  end.

(** [handle_call_tool] of [main], with the variables of [main] that it
    reads. None of the registered handlers takes the keyword
    [exclusion_config], so a call that passes it raises. *)
Definition handle_call_tool (allow_write : bool) (exclude_tools : list pystr)
    (analyze_query : pystr → DetectionResult)
    (name : pystr) (arguments : option (gmap string pystr))
  : M (list Content) :=
  handle_tool_errors
    (if bool_decide (name ∈ exclude_tools) then
       ret [TextContent
              (lit "Tool " ++ name
                 ++ lit " is excluded from this data connection")]
     else
       match List.find (λ tool, bool_decide (tool_name tool = name))
               (allowed_tools allow_write exclude_tools) with
       | None => raise (ValueError (lit "Unknown tool: " ++ name))
       | Some tool =>
           if bool_decide (name ∈ listing_names) then
             raise (ExternalError
                      (handler_qualname (tool_handler tool)
                         ++ lit "() got an unexpected keyword argument 'exclusion_config'"))
           else
             run_handler (tool_handler tool) arguments analyze_query
               allow_write
       end).

End Describe.

(** ** Exclusion patterns *)

(** One step of the merge loop of [main]: the patterns given for [key] are
    appended to those of the configuration file, or become the patterns
    of [key]. *)
Definition merge_patterns (key : string) (patterns : list pystr)
    (config : gmap string (list pystr)) : gmap string (list pystr) :=
  match config !! key with
  | Some old => <[key := old ++ patterns]> config
  | None => <[key := patterns]> config
  end.

(** One step of the loop of [main] that makes a key exist. *)
Definition ensure_key (config : gmap string (list pystr)) (key : string)
  : gmap string (list pystr) :=
  match config !! key with
  | Some _ => config
  | None => <[key := []]> config
  end.

(** [exclusion_config] as [main] computes it from the [exclude_patterns]
    entry of the configuration file (the empty dictionary when the file has
    none) and from its parameter [exclude_patterns]. *)
Definition exclusion_config (from_file : gmap string (list pystr))
    (exclude_patterns : option (gmap string (list pystr)))
  : gmap string (list pystr) :=
  let merged :=
    match exclude_patterns with
    | None => from_file
    | Some given =>
        if bool_decide (given = ∅) then from_file
        else map_fold merge_patterns from_file given
    end in
  let defaulted :=
    if bool_decide (merged = ∅)
    then {["databases" := []; "schemas" := []; "tables" := []]}
    else merged in
  foldl ensure_key defaulted ["databases"; "schemas"; "tables"].

(** ** The listing handlers *)

(** The query of [handle_list_schemas]. *)
Definition list_schemas_query (database : pystr) : pystr :=
  lit "SELECT SCHEMA_NAME FROM " ++ upper database
  ++ lit ".INFORMATION_SCHEMA.SCHEMATA".

(** The query of [handle_list_tables]. *)
Definition list_tables_query (database schema : pystr) : pystr :=
  newline
  ++ lit "        SELECT table_catalog, table_schema, table_name, comment "
  ++ newline
  ++ lit "        FROM " ++ database ++ lit ".information_schema.tables "
  ++ newline
  ++ lit "        WHERE table_schema = '" ++ upper schema ++ lit "'"
  ++ newline
  ++ lit "    ".

Section Listing.

Context {R : Runtime}.

(** The rows of a result are a list of dictionaries, one per row, from
    column names to values; [as_rows] reads them as such. *)
Variable as_rows : Rows → list (gmap string pystr).

(** [str.lower()] *)
Variable lower : pystr → pystr.

(** The inner loop of the filter: whether some pattern occurs in [name],
    letter case apart. *)
Fixpoint excluded (patterns : list pystr) (name : pystr) : bool :=
  match patterns with
  | [] => false
  | pattern :: patterns' =>
      if contains (lower name) (lower pattern) then true
      else excluded patterns' name
  end.

(** The filter of the listing handlers: with patterns configured under
    [key], the rows whose [column] matches one of them are dropped. *)
Definition filter_excluded
    (exclusion : option (gmap string (list pystr)))
    (key column : string) (data : list (gmap string pystr))
  : list (gmap string pystr) :=
  match exclusion with
  | None => data
  | Some config =>
      if bool_decide (config = ∅) then data
      else
        match config !! key with
        | None | Some [] => data
        | Some patterns =>
            List.filter
              (λ item, negb (excluded patterns (default [] (item !! column))))
              data
        end
  end.

(** The [output] dictionary of a listing handler. *)
Record ListingOutput : Type := {
  listing_data_id : pystr;
  listing_database : option pystr;
  listing_schema : option pystr;
  listing_data : list (gmap string pystr)
}.

(** [handle_list_databases] *)
Definition handle_list_databases (arguments : option (gmap string pystr))
    (exclusion : option (gmap string (list pystr))) : M ListingOutput :=
  r ← execute_query
        (lit "SELECT DATABASE_NAME FROM INFORMATION_SCHEMA.DATABASES");
  ret {| listing_data_id := snd r;
         listing_database := None;
         listing_schema := None;
         listing_data :=
           filter_excluded exclusion "databases" "DATABASE_NAME"
             (as_rows (fst r)) |}.

(** [handle_list_schemas] *)
Definition handle_list_schemas (arguments : option (gmap string pystr))
    (exclusion : option (gmap string (list pystr))) : M ListingOutput :=
  if missing_argument "database" arguments then
    raise (ValueError (lit "Missing required 'database' parameter"))
  else
    database ← lift (getitem "database" arguments);
    r ← execute_query (list_schemas_query database);
    ret {| listing_data_id := snd r;
           listing_database := Some database;
           listing_schema := None;
           listing_data :=
             filter_excluded exclusion "schemas" "SCHEMA_NAME"
               (as_rows (fst r)) |}.

(** [handle_list_tables] *)
Definition handle_list_tables (arguments : option (gmap string pystr))
    (exclusion : option (gmap string (list pystr))) : M ListingOutput :=
  if missing_argument "database" arguments
     || missing_argument "schema" arguments then
    raise (ValueError
             (lit "Missing required 'database' and 'schema' parameters"))
  else
    database ← lift (getitem "database" arguments);
    schema ← lift (getitem "schema" arguments);
    r ← execute_query (list_tables_query database schema);
    ret {| listing_data_id := snd r;
           listing_database := Some database;
           listing_schema := Some schema;
           listing_data :=
             filter_excluded exclusion "tables" "TABLE_NAME"
               (as_rows (fst r)) |}.

End Listing.

(** A string without a full stop. *)
Definition nodot (s : pystr) : bool := forallb (λ c, negb (N.eqb c dot)) s.

(** What may follow the table part of a qualified name: nothing, or
    further parts after a full stop. *)
Definition at_dot (s : pystr) : bool :=
  match s with
  | [] => true
  | c :: _ => N.eqb c dot
  end.

(** The number of full stops in a string. *)
Definition count_dots (s : pystr) : nat :=
  List.length (List.filter (λ c, N.eqb c dot) s).

(** The names of the registered tools. *)
Definition registered_names : list pystr := map tool_name all_tools.

(** ** States of the simulated worlds *)

(** A new connection object in the world without a Snowflake account. *)
Definition offline_state : @State offline_runtime :=
  {| db := @SnowflakeDB_init offline_runtime ∅;
     world := 0%Z;
     calls := [] |}.

(** A new connection object whose warehouse setting is not a string. *)
Definition bad_warehouse_state : @State sim_runtime :=
  {| db := @SnowflakeDB_init sim_runtime {["warehouse" := CfgInt 7]};
     world := 0%Z;
     calls := [] |}.

(** The simulated server after it answered a first query: the session is
    open and the initialisation task is done. *)
Definition live_state : @State sim_runtime :=
  snd (@execute_query sim_runtime (lit "SELECT 1") (sim_state 0)).

(** The same server an hour later by its clock. *)
Definition stale_state : @State sim_runtime :=
  {| db := db live_state; world := 3600%Z; calls := calls live_state |}.

(** A simulated world whose account holds two databases: every query
    returns the two rows of their names. *)
Definition catalog_runtime : Runtime :=
  {| World := Z;
     Session := unit;
     Time := Z;
     Rows := list (gmap string pystr);
     session_create := λ _ w, (Ok (), w);
     session_sql := λ _ _ w, (Ok (), w);
     sql_to_records :=
       λ _ _ w, (Ok [ {["DATABASE_NAME" := lit "ANALYTICS"]};
                      {["DATABASE_NAME" := lit "SNOWFLAKE_SAMPLE_DATA"]} ],
                 w);
     time_time := λ w, (w, (w + 1)%Z);
     time_zero := 0%Z;
     auth_expired := λ now t, (1800 <? now - t)%Z;
     uuid4 := λ w, (lit "00000000-0000-4000-8000-000000000000", w) |}.

(** A new connection object in that world. *)
Definition catalog_state : @State catalog_runtime :=
  {| db := @SnowflakeDB_init catalog_runtime ∅;
     world := 0%Z;
     calls := [] |}.

(** [str.lower()] on the letters A to Z, other characters kept; the
    simulated names and patterns hold no other letters. *)
Definition ascii_lower (s : pystr) : pystr :=
  map (λ c, if (65 <=? c) && (c <=? 90) then c + 32 else c) s.

(** * Properties *)

(** ** White space and upper-casing *)

Lemma assoc_In {V : Type} (c : N) (table : list (N * V)) (v : V) :
  assoc c table = Some v → In (c, v) table.
Proof.
  induction table as [|[k x] table IH]; simpl; [discriminate|].
  destruct (N.eqb_spec k c) as [->|_].
  - intros [= ->]. now left.
  - intros H. right. now apply IH.
Qed.

(** White space is left alone by [upper]. *)
Lemma toupper_space (c : N) : isspace c = true → toupper c = [c].
Proof.
  intros H. apply existsb_exists in H as (k & Hk & Heq).
  apply N.eqb_eq in Heq as ->.
  assert (Hall : forallb
            (λ k, bool_decide (toupper k = [k])) whitespace = true)
    by (vm_compute; reflexivity).
  rewrite forallb_forall in Hall.
  exact (bool_decide_eq_true_1 _ (Hall k Hk)).
Qed.

(** The upper-case form of a character that is not white space is not
    empty and holds no white space. *)
Lemma toupper_solid (c : N) :
  isspace c = false → istoken (toupper c) = true.
Proof.
  intros Hc. unfold toupper.
  destruct (assoc c upper_special) as [us|] eqn:Hs.
  - apply assoc_In in Hs.
    assert (Hall : forallb (λ p, istoken (snd p)) upper_special = true)
      by (vm_compute; reflexivity).
    rewrite forallb_forall in Hall. exact (Hall _ Hs).
  - destruct (assoc c upper_single) as [u|] eqn:Hu.
    + apply assoc_In in Hu.
      assert (Hall : forallb (λ p, negb (isspace (snd p))) upper_single
                     = true)
        by (vm_compute; reflexivity).
      rewrite forallb_forall in Hall. specialize (Hall _ Hu).
      simpl in *. now rewrite Hall.
    + simpl. now rewrite Hc.
Qed.

Lemma upper_app (s t : pystr) : upper (s ++ t) = upper s ++ upper t.
Proof. unfold upper. apply flat_map_app. Qed.

Lemma solid_app (s t : pystr) : solid (s ++ t) = solid s && solid t.
Proof. unfold solid. apply forallb_app. Qed.

Lemma istoken_solid (s : pystr) : istoken s = true → solid s = true.
Proof. now destruct s. Qed.

Lemma upper_solid (s : pystr) : solid s = true → solid (upper s) = true.
Proof.
  induction s as [|c s IH]; simpl; [reflexivity|].
  intros H. apply andb_true_iff in H as [Hc Hs].
  apply negb_true_iff in Hc.
  change (solid (toupper c ++ upper s) = true).
  rewrite solid_app, (istoken_solid _ (toupper_solid c Hc)).
  now apply IH.
Qed.

(** Upper-casing maps tokens to tokens. *)
Lemma upper_token (s : pystr) : istoken s = true → istoken (upper s) = true.
Proof.
  intros H. pose proof (upper_solid s (istoken_solid s H)) as Hsolid.
  destruct s as [|c s]; [discriminate|].
  simpl in H. apply andb_true_iff in H as [Hc _].
  apply negb_true_iff in Hc. apply toupper_solid in Hc.
  change (upper (c :: s)) with (toupper c ++ upper s) in *.
  destruct (toupper c); [discriminate|]. exact Hsolid.
Qed.

Lemma upper_at_boundary (s : pystr) :
  at_boundary s = true → at_boundary (upper s) = true.
Proof.
  destruct s as [|c s]; [reflexivity|]. simpl. intros Hc.
  change (at_boundary (toupper c ++ upper s) = true).
  now rewrite (toupper_space c Hc).
Qed.

(** ** Stripping *)

Lemma lstrip_blank (s t : pystr) :
  isblank s = true → lstrip (s ++ t) = lstrip t.
Proof.
  induction s as [|c s IH]; simpl; [reflexivity|].
  intros H. apply andb_true_iff in H as [-> Hs]. now apply IH.
Qed.

Lemma lstrip_token (s t : pystr) :
  istoken s = true → lstrip (s ++ t) = s ++ t.
Proof.
  destruct s as [|c s]; [discriminate|]. simpl.
  intros H. apply andb_true_iff in H as [Hc _].
  apply negb_true_iff in Hc. now rewrite Hc.
Qed.

Lemma lstrip_app (s t : pystr) :
  lstrip (s ++ t) = if isblank s then lstrip t else lstrip s ++ t.
Proof.
  induction s as [|c s IH]; simpl; [reflexivity|].
  destruct (isspace c); simpl; [exact IH | reflexivity].
Qed.

(** [lstrip] removes a blank prefix and nothing else. *)
Lemma lstrip_suffix (s : pystr) :
  ∃ ws, s = ws ++ lstrip s ∧ isblank ws = true.
Proof.
  induction s as [|c s (ws & Heq & Hws)]; simpl.
  - now exists [].
  - destruct (isspace c) eqn:Hc.
    + exists (c :: ws). simpl. rewrite Hc, Hws. split; [|reflexivity].
      now rewrite <- Heq.
    + now exists [].
Qed.

Lemma isblank_rev (s : pystr) : isblank (rev s) = isblank s.
Proof.
  unfold isblank. induction s as [|c s IH]; simpl; [reflexivity|].
  rewrite forallb_app, IH. simpl. rewrite andb_true_r. apply andb_comm.
Qed.

Lemma solid_rev (s : pystr) : solid (rev s) = solid s.
Proof.
  unfold solid. induction s as [|c s IH]; simpl; [reflexivity|].
  rewrite forallb_app, IH. simpl. rewrite andb_true_r. apply andb_comm.
Qed.

Lemma istoken_rev (s : pystr) : istoken (rev s) = istoken s.
Proof.
  pose proof (solid_rev s) as H. unfold istoken.
  destruct s as [|c s]; [reflexivity|].
  destruct (rev (c :: s)) eqn:Hr; [|exact H].
  apply (f_equal (@List.length N)) in Hr. rewrite length_rev in Hr.
  discriminate.
Qed.

Lemma rstrip_blank (s : pystr) : isblank s = true → rstrip s = [].
Proof.
  intros H. unfold rstrip.
  rewrite <- (app_nil_r (rev s)), lstrip_blank; [reflexivity|].
  now rewrite isblank_rev.
Qed.

(** [rstrip] removes a blank suffix and nothing else. *)
Lemma rstrip_prefix (s : pystr) :
  ∃ ws, s = rstrip s ++ ws ∧ isblank ws = true.
Proof.
  destruct (lstrip_suffix (rev s)) as (ws & Heq & Hws).
  exists (rev ws). split; [|now rewrite isblank_rev].
  unfold rstrip. rewrite <- rev_app_distr, <- Heq.
  symmetry. apply rev_involutive.
Qed.

(** A token is kept by [rstrip], whatever follows it. *)
Lemma rstrip_token (s t : pystr) :
  istoken s = true → rstrip (s ++ t) = s ++ rstrip t.
Proof.
  intros H. unfold rstrip. rewrite rev_app_distr, lstrip_app.
  destruct (isblank (rev t)) eqn:Hb.
  - rewrite <- (app_nil_r (rev t)), lstrip_blank by exact Hb.
    simpl. rewrite app_nil_r.
    rewrite <- (app_nil_r (rev s)), lstrip_token
      by now rewrite istoken_rev.
    rewrite app_nil_r. apply rev_involutive.
  - rewrite rev_app_distr, rev_involutive. reflexivity.
Qed.

Lemma rstrip_at_boundary (s : pystr) :
  at_boundary s = true → at_boundary (rstrip s) = true.
Proof.
  destruct (rstrip_prefix s) as (ws & Heq & _).
  destruct (rstrip s) as [|c r]; [reflexivity|].
  rewrite Heq. now simpl.
Qed.

Lemma strip_blank (s : pystr) : isblank s = true → strip s = [].
Proof.
  intros H. unfold strip.
  rewrite <- (app_nil_r s), lstrip_blank by exact H. reflexivity.
Qed.

(** [strip] on a string whose first token is [tok]. *)
Lemma strip_token (ws tok rest : pystr) :
  isblank ws = true → istoken tok = true →
  strip (ws ++ tok ++ rest) = tok ++ rstrip rest.
Proof.
  intros Hws Htok. unfold strip.
  rewrite lstrip_blank, lstrip_token by assumption.
  now apply rstrip_token.
Qed.

(** ** Splitting *)

Lemma split_from_solid (word s t : pystr) :
  solid s = true → split_from word (s ++ t) = split_from (rev s ++ word) t.
Proof.
  revert word. induction s as [|c s IH]; intros word; simpl.
  - reflexivity.
  - intros H. apply andb_true_iff in H as [Hc Hs].
    apply negb_true_iff in Hc. rewrite Hc, IH by exact Hs.
    now rewrite <- app_assoc.
Qed.

(** The first word of a string that opens with a token is that token. *)
Lemma split_token (tok rest : pystr) :
  istoken tok = true → at_boundary rest = true →
  getitem0 (split (tok ++ rest)) = Ok tok.
Proof.
  intros Htok Hrest. unfold split.
  rewrite split_from_solid by now apply istoken_solid.
  rewrite app_nil_r.
  assert (Hne : rev tok ≠ []).
  { intros Hnil. rewrite <- istoken_rev, Hnil in Htok. discriminate. }
  destruct rest as [|c rest]; simpl.
  - destruct (rev tok) eqn:Hr; [congruence|].
    rewrite <- Hr, rev_involutive. reflexivity.
  - simpl in Hrest. rewrite Hrest.
    destruct (rev tok) eqn:Hr; [congruence|].
    rewrite <- Hr, rev_involutive. reflexivity.
Qed.

(** Every string opens with a (possibly empty) run of characters that are
    not white space, which ends at a boundary. *)
Lemma leading_run (s : pystr) :
  ∃ run rest, s = run ++ rest ∧ solid run = true ∧ at_boundary rest = true.
Proof.
  induction s as [|c s (run & rest & Heq & Hrun & Hrest)].
  - now exists [], [].
  - destruct (isspace c) eqn:Hc.
    + exists [], (c :: s). now simpl.
    + exists (c :: run), rest. simpl. rewrite Hc, Hrun, Heq. now simpl.
Qed.

(** Every string is blank or has a first token. *)
Lemma blank_or_token (s : pystr) :
  isblank s = true
  ∨ ∃ ws tok rest, s = ws ++ tok ++ rest ∧ isblank ws = true
                   ∧ istoken tok = true ∧ at_boundary rest = true.
Proof.
  induction s as [|c s IH]; [now left|].
  destruct (isspace c) eqn:Hc.
  - destruct IH as [Hb | (ws & tok & rest & Heq & Hws & Htok & Hrest)].
    + left. simpl. now rewrite Hc.
    + right. exists (c :: ws), tok, rest. simpl. rewrite Hc, Heq. now simpl.
  - right. destruct (leading_run s) as (run & rest & Heq & Hrun & Hrest).
    exists [], (c :: run), rest. simpl. rewrite Hc, Heq. now simpl.
Qed.

(** ** The first word *)

Lemma first_word_blank (q : pystr) : isblank q = true → first_word q = Ok [].
Proof.
  intros H. unfold first_word, query_upper. now rewrite strip_blank.
Qed.

(** The first word that the check looks at is the upper-cased first token
    of the query. *)
Lemma first_word_token (ws tok rest : pystr) :
  isblank ws = true → istoken tok = true → at_boundary rest = true →
  first_word (ws ++ tok ++ rest) = Ok (upper tok).
Proof.
  intros Hws Htok Hrest. unfold first_word, query_upper.
  rewrite strip_token, upper_app by assumption.
  pose proof (upper_token tok Htok) as Hup.
  destruct (upper tok ++ upper (rstrip rest)) eqn:Hq.
  - destruct (upper tok); discriminate.
  - rewrite <- Hq. apply split_token; [exact Hup|].
    now apply upper_at_boundary, rstrip_at_boundary.
Qed.

(** The first word is always computed: indexing the list of words cannot
    fail, because a non-empty stripped query has a word. *)
Lemma first_word_total (q : pystr) : ∃ w, first_word q = Ok w.
Proof.
  destruct (blank_or_token q)
    as [Hb | (ws & tok & rest & -> & Hws & Htok & Hrest)].
  - exists []. now apply first_word_blank.
  - exists (upper tok). now apply first_word_token.
Qed.

(** ** Keywords *)

Lemma is_write_keyword_true (w : pystr) :
  is_write_keyword w = true ↔ w ∈ write_keywords.
Proof. unfold is_write_keyword. apply bool_decide_eq_true. Qed.

Lemma is_write_keyword_false (w : pystr) :
  is_write_keyword w = false ↔ w ∉ write_keywords.
Proof. unfold is_write_keyword. apply bool_decide_eq_false. Qed.

(** Every keyword of the check opens with one of seven capital letters. *)
Lemma write_keyword_initial (w : pystr) :
  w ∈ write_keywords →
  ∃ c w', w = c :: w' ∧ c ∈ [73; 85; 68; 67; 65; 84; 77].
Proof.
  unfold write_keywords. simpl. intros H.
  repeat (apply elem_of_cons in H as [-> | H];
          [eexists _, _; split; [reflexivity | compute_done]|]).
  now apply elem_of_nil in H.
Qed.

Lemma classify_of_first_word (q w : pystr) :
  first_word q = Ok w →
  classify q = Ok (if is_write_keyword w then write_of w else no_write).
Proof. intros H. unfold classify. now rewrite H. Qed.

Lemma safety_check_of_first_word (q w : pystr) :
  first_word q = Ok w →
  safety_check q = if is_write_keyword w
                   then Raise (ValueError (safety_message w))
                   else Ok ().
Proof. intros H. unfold safety_check. now rewrite H. Qed.

Lemma first_word_self (tok : pystr) :
  istoken tok = true → first_word tok = Ok (upper tok).
Proof.
  intros H. rewrite <- (app_nil_r tok) at 1.
  now apply (first_word_token [] tok []).
Qed.

(** The first word of a query opens with the upper-case form of the first
    character of the query that is not white space. *)
Lemma first_word_head (ws : pystr) (c : N) (s : pystr) :
  isblank ws = true → isspace c = false →
  ∃ w, first_word (ws ++ c :: s) = Ok (toupper c ++ w).
Proof.
  intros Hws Hc.
  destruct (leading_run s) as (run & rest & -> & Hrun & Hrest).
  exists (upper run).
  change (c :: run ++ rest) with ((c :: run) ++ rest).
  rewrite first_word_token; [reflexivity | exact Hws | | exact Hrest].
  simpl. now rewrite Hc.
Qed.

(** ** Substrings *)

Lemma startswith_app (p s : pystr) : startswith (p ++ s) p = true.
Proof.
  induction p as [|c p IH]; simpl; [reflexivity|].
  now rewrite N.eqb_refl.
Qed.

Lemma contains_app_r (s t sub : pystr) :
  contains t sub = true → contains (s ++ t) sub = true.
Proof.
  intros H. induction s as [|c s IH]; simpl; [exact H|].
  rewrite IH. apply orb_true_r.
Qed.

Lemma contains_startswith (s sub : pystr) :
  startswith s sub = true → contains s sub = true.
Proof. intros H. destruct s; simpl; now rewrite H. Qed.

Lemma contains_here (s t : pystr) : contains (s ++ t) s = true.
Proof. apply contains_startswith, startswith_app. Qed.

(** The message of a blocked statement names the keyword that blocked
    it. *)
Lemma safety_message_names_keyword (w : pystr) :
  contains (safety_message w) w = true.
Proof. unfold safety_message. apply contains_app_r, contains_here. Qed.

(** ** The check as a classifier *)

(** C1, as amended: for every query whose first token (after leading white
    space, upper-cased) is one of the eight keywords of the check, INSERT,
    UPDATE, DELETE, CREATE, DROP, ALTER, TRUNCATE or MERGE, the check
    reports a write with that keyword and [execute_query]'s safety check
    raises the SAFETY error. *)
Theorem guard_blocks_write_keywords (ws tok rest : pystr) :
  isblank ws = true → istoken tok = true → at_boundary rest = true →
  upper tok ∈ write_keywords →
  classify (ws ++ tok ++ rest) = Ok (write_of (upper tok))
  ∧ safety_check (ws ++ tok ++ rest)
    = Raise (ValueError (safety_message (upper tok))).
Proof.
  intros Hws Htok Hrest Hkw.
  pose proof (first_word_token ws tok rest Hws Htok Hrest) as Hfw.
  apply is_write_keyword_true in Hkw.
  rewrite (classify_of_first_word _ _ Hfw),
    (safety_check_of_first_word _ _ Hfw), Hkw.
  now split.
Qed.

Lemma guard_blocks_write_keywords_witness :
  classify (lit "  " ++ lit "drop" ++ lit " table t")
  = Ok (write_of (upper (lit "drop")))
  ∧ safety_check (lit "  " ++ lit "drop" ++ lit " table t")
    = Raise (ValueError (safety_message (upper (lit "drop")))).
Proof.
  apply (guard_blocks_write_keywords (lit "  ") (lit "drop") (lit " table t"));
    try reflexivity.
  apply is_write_keyword_true. vm_compute. reflexivity.
Defined.

(** C1 as stated fails: GRANT is in the keyword set of the specification,
    it is the first token of this query, and the check lets the query
    through. *)
Lemma guard_misses_grant :
  first_word (lit "GRANT SELECT ON t TO r") = Ok (lit "GRANT")
  ∧ lit "GRANT" ∈ spec_mutating_keywords
  ∧ classify (lit "GRANT SELECT ON t TO r") = Ok no_write
  ∧ safety_check (lit "GRANT SELECT ON t TO r") = Ok ().
Proof.
  split; [vm_compute; reflexivity|].
  split; [|split; vm_compute; reflexivity].
  apply (bool_decide_unpack _). vm_compute. exact I.
Qed.

(** C2, as amended: the check does not split its input at semicolons. It
    looks at the first token only, so whatever follows the white space
    after that token, further statements included, changes neither the
    classification nor the outcome of the safety check. *)
Theorem guard_reads_first_token_only (ws tok : pystr) (sp : N)
    (rest : pystr) :
  isblank ws = true → istoken tok = true → isspace sp = true →
  classify (ws ++ tok ++ sp :: rest) = classify tok
  ∧ safety_check (ws ++ tok ++ sp :: rest) = safety_check tok.
Proof.
  intros Hws Htok Hsp.
  pose proof (first_word_token ws tok (sp :: rest) Hws Htok Hsp) as Hfw.
  pose proof (first_word_self tok Htok) as Hself.
  rewrite (classify_of_first_word _ _ Hfw),
    (classify_of_first_word _ _ Hself),
    (safety_check_of_first_word _ _ Hfw),
    (safety_check_of_first_word _ _ Hself).
  now split.
Qed.

Lemma guard_reads_first_token_only_witness :
  classify ([] ++ lit "SELECT" ++ 32 :: lit "1; DROP TABLE x;")
  = classify (lit "SELECT")
  ∧ safety_check ([] ++ lit "SELECT" ++ 32 :: lit "1; DROP TABLE x;")
    = safety_check (lit "SELECT").
Proof.
  apply (guard_reads_first_token_only [] (lit "SELECT") 32
           (lit "1; DROP TABLE x;")); reflexivity.
Defined.

(** C2 as stated fails: a DROP that follows a SELECT and a semicolon is not
    seen, although the check blocks the same DROP when it stands alone. *)
Lemma guard_misses_second_statement :
  classify (lit "SELECT 1; DROP TABLE x;") = Ok no_write
  ∧ safety_check (lit "SELECT 1; DROP TABLE x;") = Ok ()
  ∧ classify (lit " DROP TABLE x;") = Ok (write_of (lit "DROP")).
Proof. repeat split; vm_compute; reflexivity. Qed.

(** C3, as amended: comments are not removed before the first token is
    read. A query that opens (after white space) with a line comment or a
    block comment is classified by the comment opener, which is no keyword,
    so the check reports no write whatever statement follows the comment. *)
Theorem guard_keeps_leading_comment (ws rest : pystr) :
  isblank ws = true →
  classify (ws ++ lit "--" ++ rest) = Ok no_write
  ∧ classify (ws ++ lit "/*" ++ rest) = Ok no_write.
Proof.
  intros Hws.
  assert (Hopen : ∀ c s, isspace c = false → toupper c = [c] →
            c ∉ [73; 85; 68; 67; 65; 84; 77] →
            classify (ws ++ c :: s) = Ok no_write).
  { intros c s Hc Hup Hno.
    destruct (first_word_head ws c s Hws Hc) as (w & Hfw).
    rewrite Hup in Hfw. rewrite (classify_of_first_word _ _ Hfw).
    destruct (is_write_keyword ([c] ++ w)) eqn:Hkw; [|reflexivity].
    apply is_write_keyword_true, write_keyword_initial in Hkw
      as (c' & w' & [= <- _] & Hin).
    contradiction. }
  split.
  - change (lit "--" ++ rest) with (45 :: 45 :: rest).
    apply Hopen; [reflexivity | reflexivity | compute_done].
  - change (lit "/*" ++ rest) with (47 :: 42 :: rest).
    apply Hopen; [reflexivity | reflexivity | compute_done].
Qed.

Lemma guard_keeps_leading_comment_witness :
  classify (lit " " ++ lit "--" ++ lit " c" ++ [10] ++ lit "DELETE FROM t")
  = Ok no_write
  ∧ classify (lit " " ++ lit "/*" ++ lit " c" ++ [10] ++ lit "DELETE FROM t")
    = Ok no_write.
Proof.
  apply (guard_keeps_leading_comment (lit " ")
           (lit " c" ++ [10] ++ lit "DELETE FROM t")).
  reflexivity.
Defined.

(** C3 as stated fails: the DELETE on the line after a comment is not
    seen. *)
Lemma guard_misses_commented_delete :
  classify (lit "-- comment" ++ [10] ++ lit "DELETE FROM t") = Ok no_write
  ∧ safety_check (lit "-- comment" ++ [10] ++ lit "DELETE FROM t") = Ok ().
Proof. split; vm_compute; reflexivity. Qed.

(** C4, as amended: a query whose first token is WITH (in any letter case)
    is classified by that token and not by the verb that ends the common
    table expression: the check reports no write, whether the final verb is
    SELECT or a DML verb. *)
Theorem guard_passes_with (ws tok rest : pystr) :
  isblank ws = true → istoken tok = true → at_boundary rest = true →
  upper tok = lit "WITH" →
  classify (ws ++ tok ++ rest) = Ok no_write
  ∧ safety_check (ws ++ tok ++ rest) = Ok ().
Proof.
  intros Hws Htok Hrest Hwith.
  pose proof (first_word_token ws tok rest Hws Htok Hrest) as Hfw.
  rewrite Hwith in Hfw.
  rewrite (classify_of_first_word _ _ Hfw),
    (safety_check_of_first_word _ _ Hfw).
  now split.
Qed.

Lemma guard_passes_with_witness :
  classify ([] ++ lit "With" ++ lit " a AS (SELECT 1) DELETE FROM t")
  = Ok no_write
  ∧ safety_check ([] ++ lit "With" ++ lit " a AS (SELECT 1) DELETE FROM t")
    = Ok ().
Proof.
  apply (guard_passes_with [] (lit "With")
           (lit " a AS (SELECT 1) DELETE FROM t")); reflexivity.
Defined.

(** C4 as stated fails: the INSERT that ends this common table expression
    is not seen. *)
Lemma guard_misses_cte_insert :
  classify (lit "WITH a AS (SELECT 1) INSERT INTO t SELECT * FROM a")
  = Ok no_write
  ∧ safety_check (lit "WITH a AS (SELECT 1) INSERT INTO t SELECT * FROM a")
    = Ok ().
Proof. split; vm_compute; reflexivity. Qed.

(** C5, as amended: the check fails open. A query whose first token is not
    one of the eight keywords of the check, be it a comment opener or a
    word that is no SQL keyword, is classified as no write and passes the
    safety check. *)
Theorem guard_fails_open (ws tok rest : pystr) :
  isblank ws = true → istoken tok = true → at_boundary rest = true →
  upper tok ∉ write_keywords →
  classify (ws ++ tok ++ rest) = Ok no_write
  ∧ safety_check (ws ++ tok ++ rest) = Ok ().
Proof.
  intros Hws Htok Hrest Hkw.
  pose proof (first_word_token ws tok rest Hws Htok Hrest) as Hfw.
  apply is_write_keyword_false in Hkw.
  rewrite (classify_of_first_word _ _ Hfw),
    (safety_check_of_first_word _ _ Hfw), Hkw.
  now split.
Qed.

Lemma guard_fails_open_witness :
  classify (lit " " ++ lit "frobnicate" ++ lit " t") = Ok no_write
  ∧ safety_check (lit " " ++ lit "frobnicate" ++ lit " t") = Ok ().
Proof.
  apply (guard_fails_open (lit " ") (lit "frobnicate") (lit " t"));
    try reflexivity.
  apply is_write_keyword_false. vm_compute. reflexivity.
Defined.

(** C5 as stated fails: a query that is nothing but a comment and a query
    that opens with an unknown word are both classified as no write. *)
Lemma guard_passes_ambiguous :
  classify (lit "-- nothing but a comment") = Ok no_write
  ∧ classify (lit "/* nothing but a comment */") = Ok no_write
  ∧ classify (lit "FROBNICATE t") = Ok no_write
  ∧ safety_check (lit "FROBNICATE t") = Ok ().
Proof. repeat split; vm_compute; reflexivity. Qed.

(** C8: for an empty query and for a query of white space only the check
    reports no write, and the safety check passes. *)
Theorem guard_blank_no_write (q : pystr) :
  isblank q = true → classify q = Ok no_write ∧ safety_check q = Ok ().
Proof.
  intros Hb. pose proof (first_word_blank q Hb) as Hfw.
  rewrite (classify_of_first_word _ _ Hfw),
    (safety_check_of_first_word _ _ Hfw).
  now split.
Qed.

Lemma guard_blank_no_write_witness :
  (classify [] = Ok no_write ∧ safety_check [] = Ok ())
  ∧ (classify [32; 9; 10; 160] = Ok no_write
     ∧ safety_check [32; 9; 10; 160] = Ok ()).
Proof.
  split.
  - apply (guard_blank_no_write []). reflexivity.
  - apply (guard_blank_no_write [32; 9; 10; 160]). reflexivity.
Defined.

(** C9: the classification is total. For every query the first word is
    computed without an exception (indexing the list of words never fails),
    so the classification returns a result, and the safety check either
    passes or raises the SAFETY error for one of its keywords. *)
Theorem guard_never_fails (q : pystr) :
  (∃ w, first_word q = Ok w)
  ∧ (∃ r, classify q = Ok r)
  ∧ (safety_check q = Ok ()
     ∨ ∃ w, w ∈ write_keywords
            ∧ safety_check q = Raise (ValueError (safety_message w))).
Proof.
  destruct (first_word_total q) as (w & Hfw).
  split; [now exists w|].
  rewrite (classify_of_first_word _ _ Hfw),
    (safety_check_of_first_word _ _ Hfw).
  split; [eauto|].
  destruct (is_write_keyword w) eqn:Hkw; [right | now left].
  exists w. split; [now apply is_write_keyword_true | reflexivity].
Qed.

(** ** The connection object and the tool handlers *)

Section ServerProperties.

Context {R : Runtime}.

(** A rejected query leaves [execute_query] at its first step. *)
Lemma execute_query_rejected (query : pystr) (e : exn) (st : State) :
  safety_check query = Raise e → execute_query query st = (Raise e, st).
Proof.
  intros H. unfold execute_query, mbind, M_bind, bind, lift.
  now rewrite H.
Qed.

Lemma missing_query_present (a : gmap string pystr) (q : pystr) :
  a !! "query" = Some q → missing_query (Some a) = false.
Proof.
  intros H. unfold missing_query.
  rewrite (bool_decide_eq_false_2 (a = ∅)),
    (bool_decide_eq_false_2 (a !! "query" = None)); [reflexivity| |].
  - now rewrite H.
  - intros ->. now rewrite lookup_empty in H.
Qed.

(** C6, as amended: for every query that the detector classifies as a
    write, [handle_read_query] rejects the call before anything is
    executed, with a [ValueError] whose message is the same for every
    query and names no keyword; the connection object, the outside world
    and the call log are as before the call. *)
Theorem read_query_rejects_detected_write (a : gmap string pystr)
    (analyze_query : pystr → DetectionResult) (q : pystr) (st : State) :
  a !! "query" = Some q →
  containsWrite (analyze_query q) = true →
  handle_read_query (Some a) analyze_query st
  = (Raise (ValueError
              (lit "Calls to read_query should not contain write operations")),
     st).
Proof.
  intros Ha Hw. unfold handle_read_query.
  rewrite (missing_query_present a q Ha).
  unfold mbind, M_bind, bind, lift, getitem_query.
  now rewrite Ha, Hw.
Qed.

(** When the detector lets a query through that the check of
    [execute_query] blocks, [handle_read_query] fails with the SAFETY error
    of [execute_query], and that message names the keyword. *)
Lemma read_query_blocked_by_guard (a : gmap string pystr)
    (analyze_query : pystr → DetectionResult) (q w : pystr) (st : State) :
  a !! "query" = Some q →
  containsWrite (analyze_query q) = false →
  first_word q = Ok w → w ∈ write_keywords →
  handle_read_query (Some a) analyze_query st
  = (Raise (ValueError (safety_message w)), st)
  ∧ contains (safety_message w) w = true.
Proof.
  intros Ha Hw Hfw Hkw. split; [|apply safety_message_names_keyword].
  unfold handle_read_query.
  rewrite (missing_query_present a q Ha).
  unfold mbind, M_bind, bind, lift, getitem_query.
  rewrite Ha, Hw. apply execute_query_rejected.
  rewrite (safety_check_of_first_word _ _ Hfw).
  apply is_write_keyword_true in Hkw. now rewrite Hkw.
Qed.

(** C7: [handle_write_query] and [handle_create_table] refuse every call.
    Whatever the arguments, the detector and [allow_write] are, each raises
    its [ValueError] and leaves the connection object, the outside world
    and the call log as they were: nothing is executed. *)
Theorem write_tools_always_refuse (arguments : option (gmap string pystr))
    (analyze_query : pystr → DetectionResult) (allow_write : bool)
    (st : State) :
  handle_write_query arguments analyze_query allow_write st
  = (Raise (ValueError
       (lit "Write operations are permanently disabled in this server for safety")),
     st)
  ∧ handle_create_table arguments analyze_query allow_write st
    = (Raise (ValueError
         (lit "Table creation is permanently disabled in this server for safety")),
       st).
Proof. split; reflexivity. Qed.

(** C10: the safety check is the first step of [execute_query]. For every
    query that it rejects, the call ends with the error of the check and
    the state is the one before the call: the session, [auth_time], the
    insights and the initialisation task are unchanged, the outside world
    is untouched and no call to it was made. *)
Theorem rejection_is_atomic (query : pystr) (e : exn) (st : State) :
  safety_check query = Raise e →
  execute_query query st = (Raise e, st)
  ∧ db (snd (execute_query query st)) = db st
  ∧ world (snd (execute_query query st)) = world st
  ∧ calls (snd (execute_query query st)) = calls st.
Proof.
  intros H. rewrite (execute_query_rejected query e st H). now repeat split.
Qed.

End ServerProperties.

Lemma read_query_rejects_detected_write_witness :
  @handle_read_query sim_runtime
    (Some {["query" := lit "DROP TABLE x"]}) guard_detector (sim_state 0)
  = (Raise (ValueError
              (lit "Calls to read_query should not contain write operations")),
     sim_state 0).
Proof.
  apply (@read_query_rejects_detected_write sim_runtime
           {["query" := lit "DROP TABLE x"]} guard_detector
           (lit "DROP TABLE x") (sim_state 0)).
  - vm_compute. reflexivity.
  - vm_compute. reflexivity.
Defined.

(** C6 as stated fails: the detector reports a write because of DROP, the
    handler rejects the call, and the message of its error does not hold
    the keyword. *)
Lemma read_query_error_omits_keyword :
  guard_detector (lit "DROP TABLE x") = write_of (lit "DROP")
  ∧ @handle_read_query sim_runtime
      (Some {["query" := lit "DROP TABLE x"]}) guard_detector (sim_state 0)
    = (Raise (ValueError
         (lit "Calls to read_query should not contain write operations")),
       sim_state 0)
  ∧ contains
      (lit "Calls to read_query should not contain write operations")
      (lit "DROP") = false.
Proof. repeat split; vm_compute; reflexivity. Qed.

Lemma rejection_is_atomic_witness :
  @execute_query sim_runtime (lit "delete from t") (sim_state 7)
  = (Raise (ValueError (safety_message (lit "DELETE"))), sim_state 7)
  ∧ db (snd (@execute_query sim_runtime (lit "delete from t") (sim_state 7)))
    = db (sim_state 7)
  ∧ world (snd (@execute_query sim_runtime (lit "delete from t")
                  (sim_state 7)))
    = world (sim_state 7)
  ∧ calls (snd (@execute_query sim_runtime (lit "delete from t")
                  (sim_state 7)))
    = calls (sim_state 7).
Proof.
  apply (@rejection_is_atomic sim_runtime (lit "delete from t")
           (ValueError (safety_message (lit "DELETE"))) (sim_state 7)).
  vm_compute. reflexivity.
Defined.

(** * Further properties of the code *)

(** ** The check and letter case *)

Lemma isspace_In (c : N) : isspace c = true ↔ In c whitespace.
Proof.
  unfold isspace. rewrite existsb_exists. split.
  - intros (k & Hk & Heq). apply N.eqb_eq in Heq. now subst.
  - intros H. exists c. split; [exact H | apply N.eqb_refl].
Qed.

(** Upper-casing twice is upper-casing once. *)
Lemma toupper_idem (c : N) : upper (toupper c) = toupper c.
Proof.
  destruct (assoc c upper_special) as [us|] eqn:Hs.
  - assert (Hc : toupper c = us) by (unfold toupper; now rewrite Hs).
    rewrite Hc. apply assoc_In in Hs.
    assert (Hall : forallb (λ p, bool_decide (upper (snd p) = snd p))
                     upper_special = true)
      by (vm_compute; reflexivity).
    rewrite forallb_forall in Hall.
    exact (bool_decide_eq_true_1 _ (Hall _ Hs)).
  - destruct (assoc c upper_single) as [u|] eqn:Hu.
    + assert (Hc : toupper c = [u]) by (unfold toupper; now rewrite Hs, Hu).
      rewrite Hc. apply assoc_In in Hu.
      assert (Hall : forallb (λ p, bool_decide (upper [snd p] = [snd p]))
                       upper_single = true)
        by (vm_compute; reflexivity).
      rewrite forallb_forall in Hall.
      exact (bool_decide_eq_true_1 _ (Hall _ Hu)).
    + assert (Hc : toupper c = [c]) by (unfold toupper; now rewrite Hs, Hu).
      rewrite Hc. unfold upper. simpl. now rewrite Hc.
Qed.

Lemma upper_idem (s : pystr) : upper (upper s) = upper s.
Proof.
  induction s as [|c s IH]; [reflexivity|].
  change (upper (c :: s)) with (toupper c ++ upper s).
  now rewrite upper_app, toupper_idem, IH.
Qed.

Lemma upper_blank (s : pystr) : isblank s = true → upper s = s.
Proof.
  induction s as [|c s IH]; [reflexivity|]. simpl.
  intros H. apply andb_true_iff in H as [Hc Hs].
  change (upper (c :: s)) with (toupper c ++ upper s).
  now rewrite (toupper_space c Hc), IH.
Qed.

(** A string whose upper-case form holds no white space holds none. *)
Lemma solid_of_upper (s : pystr) : solid (upper s) = true → solid s = true.
Proof.
  induction s as [|c s IH]; [reflexivity|].
  change (upper (c :: s)) with (toupper c ++ upper s).
  rewrite solid_app. intros H. apply andb_true_iff in H as [Hc Hs].
  simpl. rewrite (IH Hs), andb_true_r.
  destruct (isspace c) eqn:Hsp; [|reflexivity].
  rewrite (toupper_space c Hsp) in Hc. simpl in Hc. now rewrite Hsp in Hc.
Qed.

Lemma first_word_upper (q : pystr) : first_word (upper q) = first_word q.
Proof.
  destruct (blank_or_token q)
    as [Hb | (ws & tok & rest & -> & Hws & Htok & Hrest)].
  - now rewrite (upper_blank q Hb).
  - rewrite !upper_app, (upper_blank ws Hws).
    rewrite (first_word_token ws tok rest) by assumption.
    rewrite (first_word_token ws (upper tok) (upper rest));
      [ now rewrite upper_idem | assumption | now apply upper_token
      | now apply upper_at_boundary ].
Qed.

(** The check does not depend on letter case: a query and its upper-case
    form are classified alike and pass or fail the safety check alike. *)
Theorem guard_ignores_letter_case (q : pystr) :
  classify (upper q) = classify q
  ∧ safety_check (upper q) = safety_check q.
Proof.
  unfold classify, safety_check. now rewrite first_word_upper.
Qed.

(** No keyword of the check opens another one. *)
Lemma write_keyword_extended (kw tail : pystr) :
  kw ∈ write_keywords → tail ≠ [] → kw ++ tail ∉ write_keywords.
Proof.
  unfold write_keywords. simpl. intros Hkw Htail Hin.
  repeat (apply elem_of_cons in Hkw as [-> | Hkw];
          [ simpl in Hin;
            repeat (apply elem_of_cons in Hin as [Hin | Hin];
                    [ first [discriminate Hin
                            | injection Hin as ->; congruence] |]);
            now apply elem_of_nil in Hin |]).
  now apply elem_of_nil in Hkw.
Qed.

Lemma write_keyword_upper (kw : pystr) :
  kw ∈ write_keywords → upper kw = kw ∧ istoken kw = true.
Proof.
  unfold write_keywords. simpl. intros H.
  repeat (apply elem_of_cons in H as [-> | H];
          [split; vm_compute; reflexivity|]).
  now apply elem_of_nil in H.
Qed.

(** A keyword that is followed directly by further characters other than
    white space, as in DROP/**/TABLE or DELETE;, is not recognised: the
    first token is then longer than the keyword, and the query passes. *)
Theorem guard_passes_glued_keyword (ws head tail rest : pystr) :
  isblank ws = true → upper head ∈ write_keywords →
  istoken tail = true → at_boundary rest = true →
  classify (ws ++ head ++ tail ++ rest) = Ok no_write
  ∧ safety_check (ws ++ head ++ tail ++ rest) = Ok ().
Proof.
  intros Hws Hkw Htail Hrest.
  destruct (write_keyword_upper _ Hkw) as [_ Htoken].
  pose proof (solid_of_upper head (istoken_solid _ Htoken)) as Hsolid.
  assert (Htok : istoken (head ++ tail) = true).
  { pose proof (istoken_solid _ Htail) as Hst.
    destruct head as [|c head]; [exact Htail|].
    simpl in *. apply andb_true_iff in Hsolid as [-> Hsolid]. simpl.
    change (solid (head ++ tail) = true).
    now rewrite solid_app, Hsolid, Hst. }
  rewrite (app_assoc head tail rest).
  pose proof (first_word_token ws (head ++ tail) rest Hws Htok Hrest) as Hfw.
  rewrite upper_app in Hfw.
  assert (Hno : is_write_keyword (upper head ++ upper tail) = false).
  { apply is_write_keyword_false, write_keyword_extended; [exact Hkw|].
    apply upper_token in Htail. now destruct (upper tail). }
  rewrite (classify_of_first_word _ _ Hfw),
    (safety_check_of_first_word _ _ Hfw), Hno.
  now split.
Qed.

Lemma guard_passes_glued_keyword_witness :
  classify ([] ++ lit "drop" ++ lit "/**/table" ++ lit " t") = Ok no_write
  ∧ safety_check ([] ++ lit "drop" ++ lit "/**/table" ++ lit " t") = Ok ().
Proof.
  apply (guard_passes_glued_keyword [] (lit "drop") (lit "/**/table")
           (lit " t")); try reflexivity.
  apply is_write_keyword_true. vm_compute. reflexivity.
Defined.

(** ** The connection object *)

Arguments lit : simpl never.
Arguments upper : simpl never.
Arguments _init_database : simpl never.

(** Unfolds the operations of [M] in the goal. *)
Ltac run_M :=
  cbv [mbind M_bind bind ret raise lift try_except call get_db set_db
       set_session set_auth_time set_init_task].

(** Case analysis on every call to the outside world that the goal is
    stuck on. *)
Ltac world_cases :=
  repeat match goal with
    | |- context [session_create ?c ?w] =>
        let r := fresh "r" in let w' := fresh "w" in
        destruct (session_create c w) as [[r|r] w'] eqn:?; cbn
    | |- context [session_sql ?s ?q ?w] =>
        let r := fresh "r" in let w' := fresh "w" in
        destruct (session_sql s q w) as [[r|r] w'] eqn:?; cbn
    | |- context [sql_to_records ?s ?q ?w] =>
        let r := fresh "r" in let w' := fresh "w" in
        destruct (sql_to_records s q w) as [[r|r] w'] eqn:?; cbn
    | |- context [time_time ?w] =>
        let t := fresh "t" in let w' := fresh "w" in
        destruct (time_time w) as [t w'] eqn:?; cbn
    | |- context [uuid4 ?w] =>
        let u := fresh "u" in let w' := fresh "w" in
        destruct (uuid4 w) as [u w'] eqn:?; cbn
    | |- context [auth_expired ?a ?b] =>
        destruct (auth_expired a b) eqn:?; cbn
    | |- context [cfg_upper ?v] => destruct v; cbn
    end.

Section ConnectionProperties.

Context {R : Runtime}.

(** [SnowflakeDB.__init__] forces browser authentication with a cached
    token, whatever the given configuration says about the two settings,
    and keeps every other setting; the new object has no session, no
    insights and no initialisation task. *)
Theorem init_forces_browser_authentication (config : gmap string cfgval) :
  connection_config (SnowflakeDB_init config) !! "authenticator"
  = Some (CfgStr (lit "externalbrowser"))
  ∧ connection_config (SnowflakeDB_init config) !! "cache_mfa_token"
    = Some (CfgBool true)
  ∧ (∀ key : string, key ≠ "authenticator" → key ≠ "cache_mfa_token" →
       connection_config (SnowflakeDB_init config) !! key = config !! key)
  ∧ session (SnowflakeDB_init config) = None
  ∧ insights (SnowflakeDB_init config) = []
  ∧ init_task (SnowflakeDB_init config) = None.
Proof.
  simpl. split; [|split; [|split]].
  - now rewrite lookup_insert_ne, lookup_insert_eq.
  - now rewrite lookup_insert_eq.
  - intros key Ha Hc. now rewrite !lookup_insert_ne.
  - now repeat split.
Qed.

(** What [_init_database] does to the connection object, by outcome. *)
Lemma init_database_outcomes (st : State) :
  match _init_database st with
  | (Ok _, st') =>
      (∃ s, session (db st') = Some s)
      ∧ (∃ w, auth_time (db st') = fst (time_time w)
              ∧ world st' = snd (time_time w))
      ∧ ∃ l, calls st' = CallTime :: l
  | (Raise e, st') =>
      (∃ m, e = ValueError
                  (lit "Failed to connect to Snowflake database: " ++ m))
      ∧ auth_time (db st') = auth_time (db st)
  end
  ∧ insights (db (snd (_init_database st))) = insights (db st)
  ∧ connection_config (db (snd (_init_database st)))
    = connection_config (db st)
  ∧ init_task (db (snd (_init_database st))) = init_task (db st).
Proof.
  unfold _init_database. run_M. cbn.
  destruct (session_create (connection_config (db st)) (world st))
    as [[s|e] w1] eqn:Hcreate; cbn.
  - destruct (connection_config (db st) !! "warehouse") as [v|]; cbn;
      world_cases; repeat split; eauto;
      match goal with
      | H : time_time ?w = _ |- ∃ _, _ => exists w; now rewrite H
      end.
  - repeat split; eauto.
Qed.

Lemma init_database_create_failure_aux (st : State) (e : exn) (w : World) :
  session_create (connection_config (db st)) (world st) = (Raise e, w) →
  _init_database st
  = (Raise (ValueError
              (lit "Failed to connect to Snowflake database: "
                 ++ str_of_exn e)),
     {| db := db st; world := w; calls := CallSessionCreate :: calls st |}).
Proof.
  intros H. unfold _init_database. run_M. cbn. rewrite H. cbn.
  now destruct st as [[]].
Qed.

(** Whatever goes wrong in [_init_database] (the connection attempt, the
    warehouse setting, the USE WAREHOUSE statement), the caller sees a
    [ValueError] whose message opens with the same sentence, and
    [auth_time] is not advanced. *)
Theorem init_database_error_is_value_error (st st' : State) (e : exn) :
  _init_database st = (Raise e, st') →
  (∃ m, e = ValueError
              (lit "Failed to connect to Snowflake database: " ++ m))
  ∧ auth_time (db st') = auth_time (db st).
Proof.
  intros H. pose proof (init_database_outcomes st) as Hout.
  rewrite H in Hout. exact (proj1 Hout).
Qed.

(** When [_init_database] returns normally, the object holds a session,
    [auth_time] is a reading of the clock taken as the last step, and the
    insights and the configuration are as before. *)
Theorem init_database_success (st st' : State) :
  _init_database st = (Ok (), st') →
  (∃ s, session (db st') = Some s)
  ∧ (∃ w, auth_time (db st') = fst (time_time w)
          ∧ world st' = snd (time_time w))
  ∧ (∃ l, calls st' = CallTime :: l)
  ∧ insights (db st') = insights (db st)
  ∧ connection_config (db st') = connection_config (db st).
Proof.
  intros H. pose proof (init_database_outcomes st) as Hout.
  rewrite H in Hout. cbn in Hout.
  destruct Hout as ((Hs & Ht & Hc) & Hi & Hcfg & _). now repeat split.
Qed.

(** When the connection attempt fails, the connection object is left as it
    was, the error of the attempt is reported inside the [ValueError], and
    the attempt is the only call made. *)
Theorem init_database_create_failure (st : State) (e : exn) (w : World) :
  session_create (connection_config (db st)) (world st) = (Raise e, w) →
  _init_database st
  = (Raise (ValueError
              (lit "Failed to connect to Snowflake database: "
                 ++ str_of_exn e)),
     {| db := db st; world := w; calls := CallSessionCreate :: calls st |}).
Proof. apply init_database_create_failure_aux. Qed.

(** A warehouse setting that is not a string makes [_init_database] fail
    after the session was created: the new session stays in the object,
    [auth_time] keeps its old value and no USE WAREHOUSE is issued. *)
Theorem init_database_bad_warehouse (st : State) (v : cfgval) (s : Session)
    (w : World) :
  connection_config (db st) !! "warehouse" = Some v →
  (∀ name, v ≠ CfgStr name) →
  session_create (connection_config (db st)) (world st) = (Ok s, w) →
  ∃ m, fst (_init_database st) = Raise (ValueError m)
       ∧ session (db (snd (_init_database st))) = Some s
       ∧ auth_time (db (snd (_init_database st))) = auth_time (db st)
       ∧ world (snd (_init_database st)) = w
       ∧ calls (snd (_init_database st)) = CallSessionCreate :: calls st.
Proof.
  intros Hv Hstr Hcreate. unfold _init_database. run_M. cbn.
  rewrite Hcreate. cbn. rewrite Hv.
  destruct v as [name| |]; [now destruct (Hstr name)| |]; cbn; eauto 10.
Qed.

(** Case analysis on a run of [_init_database] in the goal, with what is
    known of its outcome. *)
Ltac init_cases :=
  match goal with
  | |- context [_init_database ?st] =>
      let Hout := fresh "Hout" in
      let st1 := fresh "st" in
      pose proof (init_database_outcomes st) as Hout;
      destruct (_init_database st) as [[[]|?] st1] eqn:?;
      cbn in Hout
  end.

(** What [execute_query] does for a query that passes the safety check. *)
Lemma execute_query_outcomes (query : pystr) (st : State) :
  safety_check query = Ok () →
  match fst (execute_query query st) with
  | Ok _ =>
      ∃ s l, session (db (snd (execute_query query st))) = Some s
             ∧ calls (snd (execute_query query st))
               = CallUuid4 :: CallSqlToRecords query :: l
  | Raise _ => True
  end
  ∧ insights (db (snd (execute_query query st))) = insights (db st)
  ∧ connection_config (db (snd (execute_query query st)))
    = connection_config (db st)
  ∧ (init_task (db st) = Some TaskPending →
     init_task (db (snd (execute_query query st))) = Some TaskDone).
Proof.
  intros Hcheck. unfold execute_query. run_M. rewrite Hcheck. cbn.
  destruct (init_task (db st)) as [[|]|] eqn:Htask; cbn.
  - unfold await_init_task. run_M. init_cases; cbn.
    + destruct Hout as (([s Hs] & _) & Hi & Hc & _). rewrite Hs.
      world_cases; repeat split; eauto.
    + destruct Hout as (_ & Hi & Hc & _). repeat split; eauto.
  - destruct (session (db st)) as [s|] eqn:Hsession; cbn.
    + world_cases.
      * init_cases; cbn.
        -- destruct Hout as (([s1 Hs] & _) & Hi & Hc & _). rewrite Hs.
           world_cases; repeat split; eauto; discriminate.
        -- destruct Hout as (_ & Hi & Hc & _).
           repeat split; eauto; discriminate.
      * rewrite Hsession. world_cases; repeat split; eauto; discriminate.
    + init_cases; cbn.
      * destruct Hout as (([s1 Hs] & _) & Hi & Hc & _). rewrite Hs.
        world_cases; repeat split; eauto; discriminate.
      * destruct Hout as (_ & Hi & Hc & _).
        repeat split; eauto; discriminate.
  - destruct (session (db st)) as [s|] eqn:Hsession; cbn.
    + world_cases.
      * init_cases; cbn.
        -- destruct Hout as (([s1 Hs] & _) & Hi & Hc & _). rewrite Hs.
           world_cases; repeat split; eauto; discriminate.
        -- destruct Hout as (_ & Hi & Hc & _).
           repeat split; eauto; discriminate.
      * rewrite Hsession. world_cases; repeat split; eauto; discriminate.
    + init_cases; cbn.
      * destruct Hout as (([s1 Hs] & _) & Hi & Hc & _). rewrite Hs.
        world_cases; repeat split; eauto; discriminate.
      * destruct Hout as (_ & Hi & Hc & _).
        repeat split; eauto; discriminate.
Qed.

(** [execute_query] never changes the insights or the configuration of the
    connection object, whatever the query and whatever its outcome. *)
Theorem execute_query_keeps_insights (query : pystr) (st : State) :
  insights (db (snd (execute_query query st))) = insights (db st)
  ∧ connection_config (db (snd (execute_query query st)))
    = connection_config (db st).
Proof.
  destruct (safety_check query) as [[]|e] eqn:Hcheck.
  - destruct (execute_query_outcomes query st Hcheck) as (_ & Hi & Hc & _).
    now split.
  - now rewrite (execute_query_rejected query e st Hcheck).
Qed.

(** A result of [execute_query] always comes from the statement it was
    given: when the call returns rows, the query had passed the safety
    check, the object holds a session, and the last two calls to the
    outside world are the execution of the query text, unchanged, and the
    draw of the [data_id]. *)
Theorem execute_query_success (query : pystr) (st st' : State)
    (r : Rows * pystr) :
  execute_query query st = (Ok r, st') →
  safety_check query = Ok ()
  ∧ ∃ s l, session (db st') = Some s
           ∧ calls st' = CallUuid4 :: CallSqlToRecords query :: l.
Proof.
  intros H. destruct (safety_check query) as [[]|e] eqn:Hcheck.
  - split; [reflexivity|].
    destruct (execute_query_outcomes query st Hcheck) as (Hok & _).
    now rewrite H in Hok.
  - rewrite (execute_query_rejected query e st Hcheck) in H. discriminate.
Qed.

(** A query that passes the safety check while the initialisation task is
    pending waits for the task: whatever the outcome of the call, the task
    is done afterwards. *)
Theorem execute_query_resolves_pending_task (query : pystr) (st : State) :
  safety_check query = Ok () →
  init_task (db st) = Some TaskPending →
  init_task (db (snd (execute_query query st))) = Some TaskDone.
Proof.
  intros Hcheck Htask.
  destruct (execute_query_outcomes query st Hcheck) as (_ & _ & _ & Hdone).
  now apply Hdone.
Qed.

(** With a session that has not expired and no pending task,
    [execute_query] does not reconnect: it reads the clock, sends the query
    text as it was given, and leaves the connection object alone. *)
Theorem execute_query_live_session (query : pystr) (st : State)
    (s : Session) :
  safety_check query = Ok () →
  init_task (db st) ≠ Some TaskPending →
  session (db st) = Some s →
  auth_expired (fst (time_time (world st))) (auth_time (db st)) = false →
  db (snd (execute_query query st)) = db st
  ∧ fst (execute_query query st)
    = match sql_to_records s query (snd (time_time (world st))) with
      | (Ok rows, w) => Ok (rows, fst (uuid4 w))
      | (Raise e, _) => Raise e
      end
  ∧ ∃ l, calls (snd (execute_query query st))
         = l ++ CallSqlToRecords query :: CallTime :: calls st
         ∧ (l = [] ∨ l = [CallUuid4]).
Proof.
  intros Hcheck Htask Hs Hfresh. unfold execute_query. run_M.
  rewrite Hcheck. cbn.
  assert (Hbranch : ∀ A (x y : A),
            match init_task (db st) with
            | Some TaskPending => x
            | _ => y
            end = y).
  { intros A x y. destruct (init_task (db st)) as [[|]|]; congruence. }
  rewrite Hbranch, Hs. cbn.
  destruct (time_time (world st)) as [t w1] eqn:Htime. cbn in *.
  rewrite Hfresh. cbn. rewrite Hs.
  destruct (sql_to_records s query w1) as [[rows|e] w2] eqn:Hsql;
    cbn; rewrite ?Hsql; cbn.
  - destruct (uuid4 w2) as [u w3] eqn:Huuid; cbn; rewrite ?Huuid; cbn.
    split; [reflexivity|]. split; [reflexivity|].
    exists [CallUuid4]. eauto.
  - split; [reflexivity|]. split; [reflexivity|]. exists []. eauto.
Qed.

(** With a session that has expired, [execute_query] connects again before
    it does anything else: after the clock, the next call is a connection
    attempt. *)
Theorem execute_query_expired_session (query : pystr) (st : State)
    (s : Session) :
  safety_check query = Ok () →
  init_task (db st) ≠ Some TaskPending →
  session (db st) = Some s →
  auth_expired (fst (time_time (world st))) (auth_time (db st)) = true →
  ∃ l, calls (snd (execute_query query st))
       = l ++ CallSessionCreate :: CallTime :: calls st.
Proof.
  intros Hcheck Htask Hs Hold. unfold execute_query. run_M.
  rewrite Hcheck. cbn.
  assert (Hbranch : ∀ A (x y : A),
            match init_task (db st) with
            | Some TaskPending => x
            | _ => y
            end = y).
  { intros A x y. destruct (init_task (db st)) as [[|]|]; congruence. }
  rewrite Hbranch, Hs. cbn.
  destruct (time_time (world st)) as [t w1] eqn:Htime. cbn in *.
  rewrite Hold. unfold _init_database. run_M. cbn.
  destruct (session_create (connection_config (db st)) w1)
    as [[s1|e] w2]; cbn.
  - destruct (connection_config (db st) !! "warehouse") as [v|]; cbn;
      world_cases;
      match goal with
      | |- ∃ l, ?c = l ++ ?t =>
          let rec strip c :=
            lazymatch c with
            | t => constr:(@nil Call)
            | ?x :: ?c' => let r := strip c' in constr:(x :: r)
            end in
          let l := strip c in exists l; reflexivity
      end.
  - now exists [].
Qed.

(** When there is no session and the connection attempt fails,
    [execute_query] raises the [ValueError] of [_init_database]; the query
    is not sent, and the connection object is as before. *)
Theorem execute_query_connect_failure (query : pystr) (st : State)
    (e : exn) (w : World) :
  safety_check query = Ok () →
  init_task (db st) ≠ Some TaskPending →
  session (db st) = None →
  session_create (connection_config (db st)) (world st) = (Raise e, w) →
  execute_query query st
  = (Raise (ValueError
              (lit "Failed to connect to Snowflake database: "
                 ++ str_of_exn e)),
     {| db := db st; world := w; calls := CallSessionCreate :: calls st |}).
Proof.
  intros Hcheck Htask Hs Hcreate. unfold execute_query. run_M.
  rewrite Hcheck. cbn.
  assert (Hbranch : ∀ A (x y : A),
            match init_task (db st) with
            | Some TaskPending => x
            | _ => y
            end = y).
  { intros A x y. destruct (init_task (db st)) as [[|]|]; congruence. }
  rewrite Hbranch, Hs.
  now rewrite (init_database_create_failure_aux st e w Hcreate).
Qed.

(** ** The memo *)

Lemma startswith_app_l (s t p : pystr) :
  startswith s p = true → startswith (s ++ t) p = true.
Proof.
  revert s. induction p as [|a p IH]; intros s; [reflexivity|].
  destruct s as [|b s]; [discriminate|]. cbn.
  intros H. apply andb_true_iff in H as [-> Hp]. now apply IH.
Qed.

Lemma contains_app_l (s t sub : pystr) :
  contains s sub = true → contains (s ++ t) sub = true.
Proof.
  induction s as [|c s IH].
  - cbn. rewrite orb_false_r. intros H. destruct sub; [|discriminate].
    now destruct t.
  - intros H.
    change (startswith (c :: s) sub || contains s sub = true) in H.
    change (startswith ((c :: s) ++ t) sub || contains (s ++ t) sub = true).
    apply orb_true_iff in H as [H|H].
    + now rewrite (startswith_app_l (c :: s) t sub H).
    + rewrite (IH H). apply orb_true_r.
Qed.

Lemma contains_refl (s : pystr) : contains s s = true.
Proof. rewrite <- (app_nil_r s) at 1. apply contains_here. Qed.

(** Every part of a joined string occurs in it. *)
Lemma contains_join (sep : pystr) (parts : list pystr) (x : pystr) :
  x ∈ parts → contains (join sep parts) x = true.
Proof.
  induction parts as [|p parts IH]; intros Hin.
  - now apply elem_of_nil in Hin.
  - destruct parts as [|p' parts].
    + apply list_elem_of_singleton in Hin as ->. apply contains_refl.
    + change (join sep (p :: p' :: parts))
        with (p ++ sep ++ join sep (p' :: parts)).
      apply elem_of_cons in Hin as [->|Hin]; [apply contains_here|].
      now apply contains_app_r, contains_app_r, IH.
Qed.

Lemma get_memo_contains (d : SnowflakeDB) (x : pystr) :
  x ∈ insights d → contains (get_memo d) (lit "- " ++ x) = true.
Proof.
  intros Hin. unfold get_memo.
  destruct (insights d) as [|i l] eqn:Hl; [now apply elem_of_nil in Hin|].
  apply contains_app_r, contains_app_r, contains_app_l, contains_join.
  apply (list_elem_of_fmap_2 (λ insight, lit "- " ++ insight)) in Hin.
  exact Hin.
Qed.

(** The memo lists every insight that the object holds, each on a line of
    its own that opens with a dash. *)
Theorem memo_lists_every_insight (d : SnowflakeDB) (x : pystr) :
  x ∈ insights d → contains (get_memo d) (lit "- " ++ x) = true.
Proof. apply get_memo_contains. Qed.

(** [add_insight] followed by [get_memo]: the new insight is stored after
    the earlier ones, the memo shows it and every earlier one, and nothing
    else of the state changes. *)
Theorem add_insight_then_memo (x : pystr) (st : State) :
  fst (add_insight x st) = Ok ()
  ∧ insights (db (snd (add_insight x st))) = insights (db st) ++ [x]
  ∧ contains (get_memo (db (snd (add_insight x st)))) (lit "- " ++ x) = true
  ∧ (∀ y, y ∈ insights (db st) →
       contains (get_memo (db (snd (add_insight x st)))) (lit "- " ++ y)
       = true)
  ∧ session (db (snd (add_insight x st))) = session (db st)
  ∧ world (snd (add_insight x st)) = world st
  ∧ calls (snd (add_insight x st)) = calls st.
Proof.
  split; [reflexivity|]. split; [reflexivity|].
  split; [|split; [|now repeat split]].
  - apply get_memo_contains. cbn. apply elem_of_app. right.
    apply list_elem_of_singleton. reflexivity.
  - intros y Hy. apply get_memo_contains. cbn. apply elem_of_app.
    now left.
Qed.

End ConnectionProperties.

Lemma init_database_error_is_value_error_witness :
  (∃ m, ValueError
          (lit "Failed to connect to Snowflake database: "
             ++ lit "browser authentication failed")
        = ValueError (lit "Failed to connect to Snowflake database: " ++ m))
  ∧ auth_time (db (snd (@_init_database offline_runtime offline_state)))
    = auth_time (db offline_state).
Proof.
  apply (@init_database_error_is_value_error offline_runtime offline_state
           (snd (@_init_database offline_runtime offline_state))
           (ValueError
              (lit "Failed to connect to Snowflake database: "
                 ++ lit "browser authentication failed"))).
  vm_compute. reflexivity.
Defined.

Lemma init_database_success_witness :
  (∃ s, session (db (snd (@_init_database sim_runtime (sim_state 0))))
        = Some s)
  ∧ (∃ w, auth_time (db (snd (@_init_database sim_runtime (sim_state 0))))
          = fst (@time_time sim_runtime w)
          ∧ world (snd (@_init_database sim_runtime (sim_state 0)))
            = snd (@time_time sim_runtime w))
  ∧ (∃ l, calls (snd (@_init_database sim_runtime (sim_state 0)))
          = CallTime :: l)
  ∧ insights (db (snd (@_init_database sim_runtime (sim_state 0))))
    = insights (db (sim_state 0))
  ∧ connection_config (db (snd (@_init_database sim_runtime (sim_state 0))))
    = connection_config (db (sim_state 0)).
Proof.
  apply (@init_database_success sim_runtime (sim_state 0)
           (snd (@_init_database sim_runtime (sim_state 0)))).
  vm_compute. reflexivity.
Defined.

Lemma init_database_create_failure_witness :
  @_init_database offline_runtime offline_state
  = (Raise (ValueError
              (lit "Failed to connect to Snowflake database: "
                 ++ str_of_exn
                      (ExternalError (lit "browser authentication failed")))),
     {| db := db offline_state; world := 0%Z;
        calls := CallSessionCreate :: calls offline_state |}).
Proof.
  apply (@init_database_create_failure offline_runtime offline_state
           (ExternalError (lit "browser authentication failed")) 0%Z).
  reflexivity.
Defined.

Lemma init_database_bad_warehouse_witness :
  ∃ m, fst (@_init_database sim_runtime bad_warehouse_state)
       = Raise (ValueError m)
       ∧ session (db (snd (@_init_database sim_runtime bad_warehouse_state)))
         = Some ()
       ∧ auth_time (db (snd (@_init_database sim_runtime
                               bad_warehouse_state)))
         = auth_time (db bad_warehouse_state)
       ∧ world (snd (@_init_database sim_runtime bad_warehouse_state)) = 0%Z
       ∧ calls (snd (@_init_database sim_runtime bad_warehouse_state))
         = CallSessionCreate :: calls bad_warehouse_state.
Proof.
  apply (@init_database_bad_warehouse sim_runtime bad_warehouse_state
           (CfgInt 7) () 0%Z).
  - vm_compute. reflexivity.
  - intros name. discriminate.
  - reflexivity.
Defined.

Lemma execute_query_success_witness :
  safety_check (lit "SELECT 1") = Ok ()
  ∧ ∃ s l, session (db live_state) = Some s
           ∧ calls live_state
             = CallUuid4 :: CallSqlToRecords (lit "SELECT 1") :: l.
Proof.
  apply (@execute_query_success sim_runtime (lit "SELECT 1") (sim_state 0)
           live_state
           ([], lit "00000000-0000-4000-8000-000000000000")).
  vm_compute. reflexivity.
Defined.

Lemma execute_query_resolves_pending_task_witness :
  init_task (db (snd (@execute_query sim_runtime (lit "SELECT 1")
                        (sim_state 0))))
  = Some TaskDone.
Proof.
  apply (@execute_query_resolves_pending_task sim_runtime (lit "SELECT 1")
           (sim_state 0)).
  - vm_compute. reflexivity.
  - reflexivity.
Defined.

Lemma execute_query_live_session_witness :
  db (snd (@execute_query sim_runtime (lit "select 2") live_state))
  = db live_state
  ∧ fst (@execute_query sim_runtime (lit "select 2") live_state)
    = match @sql_to_records sim_runtime () (lit "select 2")
              (snd (@time_time sim_runtime (world live_state))) with
      | (Ok rows, w) => Ok (rows, fst (@uuid4 sim_runtime w))
      | (Raise e, _) => Raise e
      end
  ∧ ∃ l, calls (snd (@execute_query sim_runtime (lit "select 2")
                       live_state))
         = l ++ CallSqlToRecords (lit "select 2") :: CallTime
                :: calls live_state
         ∧ (l = [] ∨ l = [CallUuid4]).
Proof.
  apply (@execute_query_live_session sim_runtime (lit "select 2")
           live_state ()).
  - vm_compute. reflexivity.
  - vm_compute. discriminate.
  - vm_compute. reflexivity.
  - vm_compute. reflexivity.
Defined.

Lemma execute_query_expired_session_witness :
  ∃ l, calls (snd (@execute_query sim_runtime (lit "select 2") stale_state))
       = l ++ CallSessionCreate :: CallTime :: calls stale_state.
Proof.
  apply (@execute_query_expired_session sim_runtime (lit "select 2")
           stale_state ()).
  - vm_compute. reflexivity.
  - vm_compute. discriminate.
  - vm_compute. reflexivity.
  - vm_compute. reflexivity.
Defined.

Lemma execute_query_connect_failure_witness :
  @execute_query offline_runtime (lit "select 2") offline_state
  = (Raise (ValueError
              (lit "Failed to connect to Snowflake database: "
                 ++ str_of_exn
                      (ExternalError (lit "browser authentication failed")))),
     {| db := db offline_state; world := 0%Z;
        calls := CallSessionCreate :: calls offline_state |}).
Proof.
  apply (@execute_query_connect_failure offline_runtime (lit "select 2")
           offline_state
           (ExternalError (lit "browser authentication failed")) 0%Z).
  - vm_compute. reflexivity.
  - discriminate.
  - reflexivity.
  - reflexivity.
Defined.

Lemma memo_lists_every_insight_witness :
  contains
    (@get_memo sim_runtime
       (db (snd (@add_insight sim_runtime (lit "churn is seasonal")
                   (sim_state 0)))))
    (lit "- " ++ lit "churn is seasonal")
  = true.
Proof.
  apply (@memo_lists_every_insight sim_runtime
           (db (snd (@add_insight sim_runtime (lit "churn is seasonal")
                       (sim_state 0))))
           (lit "churn is seasonal")).
  apply (bool_decide_unpack _). vm_compute. exact I.
Defined.

(** ** Qualified table names *)

Lemma split_at_length (sep : N) (word s : pystr) :
  List.length (split_at sep word s)
  = S (List.length (List.filter (λ c, N.eqb c sep) s)).
Proof.
  revert word. induction s as [|c s IH]; intros word; cbn; [reflexivity|].
  destruct (N.eqb c sep); cbn; now rewrite IH.
Qed.

(** A name has one part more than it has full stops. *)
Lemma split_sep_length (s : pystr) :
  List.length (split_sep dot s) = S (count_dots s).
Proof. apply split_at_length. Qed.

Lemma split_at_part (word part rest : pystr) :
  nodot part = true →
  split_at dot word (part ++ dot :: rest)
  = (rev word ++ part) :: split_at dot [] rest.
Proof.
  revert word. induction part as [|c part IH]; intros word; cbn.
  - intros _. now rewrite app_nil_r.
  - intros H. apply andb_true_iff in H as [Hc Hp].
    apply negb_true_iff in Hc. rewrite Hc, IH by exact Hp. cbn.
    now rewrite <- app_assoc.
Qed.

Lemma split_at_last (word part rest : pystr) :
  nodot part = true → at_dot rest = true →
  ∃ more, split_at dot word (part ++ rest) = (rev word ++ part) :: more.
Proof.
  intros Hp Hrest. destruct rest as [|c rest].
  - rewrite app_nil_r. clear Hrest. revert word.
    induction part as [|c part IH]; intros word; cbn.
    + exists []. now rewrite app_nil_r.
    + cbn in Hp. apply andb_true_iff in Hp as [Hc Hp].
      apply negb_true_iff in Hc. rewrite Hc.
      destruct (IH Hp (c :: word)) as [more ->]. exists more. cbn.
      now rewrite <- app_assoc.
  - cbn in Hrest. apply N.eqb_eq in Hrest as ->.
    rewrite split_at_part by exact Hp. eauto.
Qed.

Section ServerExtras.

Context {R : Runtime}.

Lemma missing_argument_present (key : string) (a : gmap string pystr)
    (v : pystr) :
  a !! key = Some v → missing_argument key (Some a) = false.
Proof.
  intros H. unfold missing_argument.
  rewrite (bool_decide_eq_false_2 (a = ∅)),
    (bool_decide_eq_false_2 (a !! key = None)); [reflexivity| |].
  - now rewrite H.
  - intros ->. now rewrite lookup_empty in H.
Qed.

(** [handle_describe_table] rejects a table name with fewer than two full
    stops before anything is sent to the database: the state is as
    before. *)
Theorem describe_table_rejects_short_name (a : gmap string pystr)
    (table_spec : pystr) (st : State) :
  a !! "table_name" = Some table_spec →
  (count_dots table_spec < 2)%nat →
  handle_describe_table (Some a) st
  = (Raise (ValueError
       (lit "Table name must be fully qualified as 'database.schema.table'")),
     st).
Proof.
  intros Ha Hdots. unfold handle_describe_table.
  rewrite (missing_argument_present _ _ _ Ha). run_M. cbn. rewrite Ha.
  pose proof (split_sep_length table_spec) as Hlen.
  destruct (split_sep dot table_spec) as [|p1 [|p2 [|p3 parts]]];
    try reflexivity.
  cbn in Hlen. lia.
Qed.

(** [handle_describe_table] on a qualified name: the first three parts are
    upper-cased and put into the query, further parts are ignored, and the
    result is that of [execute_query] on this query, labelled with the
    three names. *)
Theorem describe_table_uses_three_parts (a : gmap string pystr)
    (database schema table rest : pystr) (st : State) :
  a !! "table_name"
  = Some (database ++ dot :: schema ++ dot :: table ++ rest) →
  nodot database = true → nodot schema = true → nodot table = true →
  at_dot rest = true →
  handle_describe_table (Some a) st
  = match execute_query
            (describe_table_query (upper database) (upper schema)
               (upper table)) st with
    | (Ok r, st') =>
        (Ok {| out_data_id := snd r;
               out_database := Some (upper database);
               out_schema := Some (upper schema);
               out_table := Some (upper table);
               out_data := fst r |}, st')
    | (Raise e, st') => (Raise e, st')
    end.
Proof.
  intros Ha Hd Hs Ht Hrest. unfold handle_describe_table.
  rewrite (missing_argument_present _ _ _ Ha). run_M. cbn. rewrite Ha.
  unfold split_sep. rewrite (split_at_part [] database) by exact Hd.
  rewrite (split_at_part [] schema) by exact Hs.
  destruct (split_at_last [] table rest Ht Hrest) as [more ->]. cbn.
  now destruct (execute_query _ st) as [[r|e] st'].
Qed.

(** The queries that the handlers build pass the safety check of
    [execute_query], whatever names are put into them: each opens with
    SELECT. *)
Theorem handler_queries_pass_safety_check (database schema table : pystr) :
  safety_check (lit "SELECT DATABASE_NAME FROM INFORMATION_SCHEMA.DATABASES")
  = Ok ()
  ∧ safety_check (list_schemas_query database) = Ok ()
  ∧ safety_check (list_tables_query database schema) = Ok ()
  ∧ safety_check (describe_table_query database schema table) = Ok ().
Proof.
  assert (Hselect : ∀ ws rest, isblank ws = true → at_boundary rest = true →
            safety_check (ws ++ lit "SELECT" ++ rest) = Ok ()).
  { intros ws rest Hws Hrest.
    now rewrite (safety_check_of_first_word _ _
                   (first_word_token ws (lit "SELECT") rest Hws
                      eq_refl Hrest)). }
  split; [vm_compute; reflexivity|]. split; [|split].
  - apply (Hselect [] (lit " SCHEMA_NAME FROM " ++ upper database
                         ++ lit ".INFORMATION_SCHEMA.SCHEMATA"));
      reflexivity.
  - apply (Hselect (newline ++ lit "        ")
             (lit " table_catalog, table_schema, table_name, comment "
                ++ newline
                ++ lit "        FROM " ++ database
                ++ lit ".information_schema.tables "
                ++ newline
                ++ lit "        WHERE table_schema = '" ++ upper schema
                ++ lit "'" ++ newline ++ lit "    "));
      reflexivity.
  - apply (Hselect (newline ++ lit "        ")
             (lit " column_name, column_default, is_nullable, data_type, comment "
                ++ newline
                ++ lit "        FROM " ++ database
                ++ lit ".information_schema.columns "
                ++ newline
                ++ lit "        WHERE table_schema = '" ++ schema
                ++ lit "' AND table_name = '" ++ table ++ lit "'"
                ++ newline ++ lit "    "));
      reflexivity.
Qed.

(** ** Tool dispatch *)

Variable codebase_query : Handler → option (gmap string pystr)
                          → M (list Content).

Lemma find_filter_none {A : Type} (P Q : A → bool) (l : list A) :
  (∀ x, In x l → P x = false) → List.find P (List.filter Q l) = None.
Proof.
  intros H. induction l as [|x l IH]; [reflexivity|]. cbn.
  destruct (Q x); cbn.
  - rewrite (H x) by now left. apply IH. intros y Hy. apply H. now right.
  - apply IH. intros y Hy. apply H. now right.
Qed.

(** The flag [allow_write] does not change the tools that may be called:
    no registered tool carries a tag. *)
Lemma allowed_tools_allow_write (exclude_tools : list pystr) :
  allowed_tools true exclude_tools = allowed_tools false exclude_tools.
Proof. reflexivity. Qed.

(** [handle_call_tool] never raises: every exception of a handler or of the
    dispatch comes back as a text. *)
Theorem call_tool_never_raises (allow_write : bool)
    (exclude_tools : list pystr) (analyze_query : pystr → DetectionResult)
    (name : pystr) (arguments : option (gmap string pystr)) (st : State) :
  ∃ contents,
    fst (handle_call_tool codebase_query allow_write exclude_tools
           analyze_query name arguments st)
    = Ok contents.
Proof.
  unfold handle_call_tool, handle_tool_errors, try_except.
  match goal with |- context [let (_, _) := ?m st in _] =>
    destruct (m st) as [[contents|e] st'] end; cbn; eauto.
Qed.

(** A name that is not the name of a registered tool, such as
    [write_query], [create_table] or [list_databases], reaches no handler,
    with or without [allow_write]: the caller gets a text about an
    excluded or an unknown tool, and the state is as before. *)
Theorem call_tool_unregistered (allow_write : bool)
    (exclude_tools : list pystr) (analyze_query : pystr → DetectionResult)
    (name : pystr) (arguments : option (gmap string pystr)) (st : State) :
  name ∉ registered_names →
  handle_call_tool codebase_query allow_write exclude_tools analyze_query
    name arguments st
  = (Ok [TextContent
           (if bool_decide (name ∈ exclude_tools)
            then lit "Tool " ++ name
                 ++ lit " is excluded from this data connection"
            else lit "Error: " ++ (lit "Unknown tool: " ++ name))],
     st).
Proof.
  intros Hname. unfold handle_call_tool, handle_tool_errors, try_except.
  destruct (bool_decide (name ∈ exclude_tools)); [reflexivity|].
  unfold allowed_tools. rewrite find_filter_none; [reflexivity|].
  intros tool Hin. apply bool_decide_eq_false. intros Heq.
  apply Hname. unfold registered_names. rewrite <- Heq.
  apply list_elem_of_In, in_map, Hin.
Qed.

(** The flag [allow_write] is inert: a call behaves the same with it and
    without it. *)
Theorem call_tool_ignores_allow_write (exclude_tools : list pystr)
    (analyze_query : pystr → DetectionResult) (name : pystr)
    (arguments : option (gmap string pystr)) (st : State) :
  handle_call_tool codebase_query true exclude_tools analyze_query name
    arguments st
  = handle_call_tool codebase_query false exclude_tools analyze_query name
      arguments st.
Proof.
  unfold handle_call_tool. rewrite allowed_tools_allow_write.
  destruct (bool_decide (name ∈ exclude_tools)); [reflexivity|].
  destruct (List.find _ (allowed_tools false exclude_tools)) as [tool|];
    [|reflexivity].
  destruct (bool_decide (name ∈ listing_names)); [reflexivity|].
  now destruct (tool_handler tool).
Qed.

Lemma find_filter_some {A : Type} (P Q : A → bool) (l : list A) (x : A) :
  In x l → Q x = true → P x = true →
  (∀ y, In y l → P y = true → y = x) →
  List.find P (List.filter Q l) = Some x.
Proof.
  intros Hin HQ HP Huniq. induction l as [|y l IH]; [destruct Hin|].
  assert (Hrest : ∀ z, In z l → P z = true → z = x).
  { intros z Hz. apply Huniq. now right. }
  cbn. destruct (Q y) eqn:HQy; cbn.
  - destruct (P y) eqn:HPy.
    + f_equal. apply Huniq; [now left | exact HPy].
    + apply IH; [|exact Hrest].
      destruct Hin as [->|Hin]; [congruence | exact Hin].
  - apply IH; [|exact Hrest].
    destruct Hin as [->|Hin]; [congruence | exact Hin].
Qed.

(** The registered tools have different names. *)
Lemma tool_name_unique (x y : Tool) :
  In x all_tools → In y all_tools → tool_name y = tool_name x → y = x.
Proof.
  intros Hx Hy.
  repeat (destruct Hx as [<-|Hx]; [|]); try destruct Hx;
    repeat (destruct Hy as [<-|Hy]; [|]); try destruct Hy;
    intros Heq; first [reflexivity | vm_compute in Heq; discriminate Heq].
Qed.

(** A registered tool that is not excluded is the one that the dispatch
    finds under its name. *)
Lemma find_allowed_tool (allow_write : bool) (exclude_tools : list pystr)
    (tool : Tool) :
  In tool all_tools → tool_name tool ∉ exclude_tools →
  List.find (λ t, bool_decide (tool_name t = tool_name tool))
    (allowed_tools allow_write exclude_tools)
  = Some tool.
Proof.
  intros Hin Hex. unfold allowed_tools. apply find_filter_some.
  - exact Hin.
  - rewrite (bool_decide_eq_false_2 _ Hex). cbn.
    assert (Htags : tool_tags tool = []).
    { repeat (destruct Hin as [<-|Hin]; [reflexivity|]). destruct Hin. }
    now rewrite Htags.
  - now apply bool_decide_eq_true.
  - intros y Hy Heq. apply bool_decide_eq_true in Heq.
    now apply tool_name_unique.
Qed.

(** A query that the safety check rejects makes [handle_read_query] raise
    with the state unchanged, whatever the detector says. *)
Lemma handle_read_query_rejected (a : gmap string pystr)
    (analyze_query : pystr → DetectionResult) (q : pystr) (e : exn)
    (st : State) :
  a !! "query" = Some q → safety_check q = Raise e →
  ∃ e', handle_read_query (Some a) analyze_query st = (Raise e', st).
Proof.
  intros Ha Hcheck. unfold handle_read_query.
  rewrite (missing_query_present a q Ha). run_M. cbn. rewrite Ha.
  destruct (containsWrite (analyze_query q)); [eauto|].
  rewrite (execute_query_rejected q e st Hcheck). eauto.
Qed.

(** Through [handle_call_tool], the tool [read_query] never sends a query
    that opens with a write keyword: whatever the detector answers and
    whatever the server settings are, the caller gets a text and the state
    is as before the call. *)
Theorem call_tool_read_query_blocks_write_keyword (allow_write : bool)
    (exclude_tools : list pystr) (analyze_query : pystr → DetectionResult)
    (a : gmap string pystr) (ws tok rest : pystr) (st : State) :
  a !! "query" = Some (ws ++ tok ++ rest) →
  isblank ws = true → istoken tok = true → at_boundary rest = true →
  upper tok ∈ write_keywords →
  snd (handle_call_tool codebase_query allow_write exclude_tools
         analyze_query (lit "read_query") (Some a) st)
  = st
  ∧ ∃ text,
      fst (handle_call_tool codebase_query allow_write exclude_tools
             analyze_query (lit "read_query") (Some a) st)
      = Ok [TextContent text].
Proof.
  intros Ha Hws Htok Hrest Hkw.
  assert (Hcheck : safety_check (ws ++ tok ++ rest)
                   = Raise (ValueError (safety_message (upper tok)))).
  { rewrite (safety_check_of_first_word _ _
               (first_word_token ws tok rest Hws Htok Hrest)).
    apply is_write_keyword_true in Hkw. now rewrite Hkw. }
  destruct (handle_read_query_rejected a analyze_query _ _ st Ha Hcheck)
    as [e' Hread].
  unfold handle_call_tool, handle_tool_errors, try_except.
  destruct (bool_decide (lit "read_query" ∈ exclude_tools)) eqn:Hex;
    [cbn; eauto|].
  apply bool_decide_eq_false in Hex.
  pose proof (find_allowed_tool allow_write exclude_tools
                {| tool_name := lit "read_query";
                   tool_handler := read_query; tool_tags := [] |}) as Hfind.
  cbn [tool_name] in Hfind.
  rewrite Hfind; [|unfold all_tools; cbn; tauto | exact Hex].
  cbn [tool_handler tool_name].
  rewrite (bool_decide_eq_false_2 (lit "read_query" ∈ listing_names))
    by compute_done.
  unfold run_handler. run_M. rewrite Hread. cbn. eauto.
Qed.

(** The tool [health_check] never reports on the session. Its handler is
    not a coroutine function, so awaiting what it returns fails: every
    call comes back as an error text, and the state is as before. *)
Theorem call_tool_health_check (allow_write : bool)
    (exclude_tools : list pystr) (analyze_query : pystr → DetectionResult)
    (arguments : option (gmap string pystr)) (st : State) :
  lit "health_check" ∉ exclude_tools →
  handle_call_tool codebase_query allow_write exclude_tools analyze_query
    (lit "health_check") arguments st
  = (Ok [TextContent
           (lit "Error: "
              ++ lit "object list can't be used in 'await' expression")],
     st).
Proof.
  intros Hex. unfold handle_call_tool, handle_tool_errors, try_except.
  rewrite (bool_decide_eq_false_2 _ Hex).
  pose proof (find_allowed_tool allow_write exclude_tools
                {| tool_name := lit "health_check";
                   tool_handler := health_check; tool_tags := [] |})
    as Hfind.
  cbn [tool_name] in Hfind.
  rewrite Hfind; [|unfold all_tools; cbn; tauto | exact Hex].
  cbn [tool_handler tool_name].
  rewrite (bool_decide_eq_false_2 (lit "health_check" ∈ listing_names))
    by compute_done.
  reflexivity.
Qed.

End ServerExtras.

(** ** Exclusion patterns *)

(** The patterns under a key, none when the key is absent. *)
Lemma merge_patterns_lookup (key : string)
    (from_file given : gmap string (list pystr)) :
  default [] (map_fold merge_patterns from_file given !! key)
  = default [] (from_file !! key) ++ default [] (given !! key)
  ∧ (is_Some (map_fold merge_patterns from_file given !! key)
     ↔ is_Some (from_file !! key) ∨ is_Some (given !! key)).
Proof.
  apply (map_fold_weak_ind
           (λ r m, default [] (r !! key)
                   = default [] (from_file !! key) ++ default [] (m !! key)
                   ∧ (is_Some (r !! key)
                      ↔ is_Some (from_file !! key) ∨ is_Some (m !! key)))).
  - rewrite lookup_empty. cbn. rewrite app_nil_r. split; [reflexivity|].
    split; [now left|]. intros [H|H]; [exact H|]. now destruct H.
  - intros i x m r Hi [IH1 IH2]. unfold merge_patterns.
    destruct (decide (i = key)) as [->|Hne].
    + rewrite Hi in IH1, IH2. cbn in IH1. rewrite app_nil_r in IH1.
      destruct (r !! key) as [old|] eqn:Hr; rewrite !lookup_insert_eq; cbn.
      * cbn in IH1. rewrite IH1. split; [reflexivity|].
        split; [right|]; eauto.
      * cbn in IH1. rewrite <- IH1. split; [reflexivity|].
        split; [right|]; eauto.
    + destruct (r !! i); rewrite !lookup_insert_ne by exact Hne;
        now split.
Qed.

Lemma ensure_key_lookup (config : gmap string (list pystr))
    (key k : string) :
  default [] (ensure_key config key !! k) = default [] (config !! k)
  ∧ (is_Some (ensure_key config key !! k)
     ↔ is_Some (config !! k) ∨ k = key).
Proof.
  unfold ensure_key. destruct (config !! key) as [x|] eqn:Hkey.
  - split; [reflexivity|]. split; [now left|].
    intros [H| ->]; [exact H|]. rewrite Hkey. eauto.
  - destruct (decide (key = k)) as [<-|Hne].
    + rewrite lookup_insert_eq, Hkey. cbn. split; [reflexivity|].
      split; eauto.
    + rewrite lookup_insert_ne by exact Hne. split; [reflexivity|].
      split; [now left|]. intros [H| ->]; [exact H | congruence].
Qed.

(** The exclusion patterns that the server works with. Under every key
    they are the patterns of the configuration file followed by the
    patterns given as a parameter, and the three keys that the listing
    handlers read are always present. *)
Theorem exclusion_config_merges (from_file : gmap string (list pystr))
    (exclude_patterns : option (gmap string (list pystr))) (key : string) :
  default [] (exclusion_config from_file exclude_patterns !! key)
  = default [] (from_file !! key)
    ++ default [] (default ∅ exclude_patterns !! key)
  ∧ is_Some (exclusion_config from_file exclude_patterns !! "databases")
  ∧ is_Some (exclusion_config from_file exclude_patterns !! "schemas")
  ∧ is_Some (exclusion_config from_file exclude_patterns !! "tables").
Proof.
  unfold exclusion_config.
  set (merged := match exclude_patterns with
                 | Some given =>
                     if bool_decide (given = ∅) then from_file
                     else map_fold merge_patterns from_file given
                 | None => from_file
                 end).
  assert (Hmerged : ∀ k, default [] (merged !! k)
            = default [] (from_file !! k)
              ++ default [] (default ∅ exclude_patterns !! k)).
  { intros k. subst merged. destruct exclude_patterns as [given|]; cbn.
    - case_bool_decide as Hempty.
      + subst given. rewrite lookup_empty. cbn. now rewrite app_nil_r.
      + apply merge_patterns_lookup.
    - rewrite lookup_empty. cbn. now rewrite app_nil_r. }
  set (defaulted := if bool_decide (merged = ∅)
                    then {["databases" := []; "schemas" := [];
                           "tables" := []]}
                    else merged).
  assert (Hdefaulted : ∀ k, default [] (defaulted !! k)
                            = default [] (merged !! k)).
  { intros k. subst defaulted. case_bool_decide as Hempty; [|reflexivity].
    rewrite Hempty, lookup_empty. cbn.
    destruct (decide (k = "databases")) as [->|H1]; [reflexivity|].
    destruct (decide (k = "schemas")) as [->|H2]; [reflexivity|].
    destruct (decide (k = "tables")) as [->|H3]; [reflexivity|].
    now rewrite !lookup_insert_ne, lookup_singleton_ne by congruence. }
  cbn [foldl].
  split; [|split; [|split]].
  - rewrite !(proj1 (ensure_key_lookup _ _ _)).
    now rewrite Hdefaulted, Hmerged.
  - apply ensure_key_lookup. left. apply ensure_key_lookup. left.
    apply ensure_key_lookup. now right.
  - apply ensure_key_lookup. left. apply ensure_key_lookup. now right.
  - apply ensure_key_lookup. now right.
Qed.

(** ** The listing handlers *)

Section ListingProperties.

Context {R : Runtime}.

Variable as_rows : Rows → list (gmap string pystr).

Variable lower : pystr → pystr.

Lemma excluded_false (patterns : list pystr) (name : pystr) :
  excluded lower patterns name = false
  ↔ ∀ p, p ∈ patterns → contains (lower name) (lower p) = false.
Proof.
  induction patterns as [|q patterns IH]; cbn.
  - split; [|reflexivity]. intros _ p Hp. now apply elem_of_nil in Hp.
  - destruct (contains (lower name) (lower q)) eqn:Hq.
    + split; [discriminate|]. intros H.
      rewrite <- Hq. apply H. now left.
    + rewrite IH. split.
      * intros H p Hp. apply elem_of_cons in Hp as [->|Hp]; auto.
      * intros H p Hp. apply H. now right.
Qed.

(** With patterns configured under a key, the filter keeps exactly the
    rows in whose column none of the patterns occurs. *)
Lemma filter_excluded_elem (config : gmap string (list pystr))
    (key column : string) (patterns : list pystr)
    (data : list (gmap string pystr)) (item : gmap string pystr) :
  config !! key = Some patterns →
  item ∈ filter_excluded lower (Some config) key column data
  ↔ item ∈ data
    ∧ ∀ p, p ∈ patterns →
        contains (lower (default [] (item !! column))) (lower p) = false.
Proof.
  intros Hkey. unfold filter_excluded.
  rewrite bool_decide_eq_false_2, Hkey
    by (intros ->; now rewrite lookup_empty in Hkey).
  destruct patterns as [|q patterns].
  - split; [|now intros [H _]]. intros H. split; [exact H|].
    intros p Hp. now apply elem_of_nil in Hp.
  - rewrite !list_elem_of_In, filter_In, negb_true_iff, excluded_false.
    reflexivity.
Qed.

(** Without patterns under a key, the filter keeps every row. *)
Lemma filter_excluded_none
    (exclusion : option (gmap string (list pystr))) (key column : string)
    (data : list (gmap string pystr)) :
  default [] (default ∅ exclusion !! key) = [] →
  filter_excluded lower exclusion key column data = data.
Proof.
  unfold filter_excluded. destruct exclusion as [config|]; [|reflexivity].
  cbn. destruct (bool_decide (config = ∅)); [reflexivity|].
  destruct (config !! key) as [[|q patterns]|]; [reflexivity| |reflexivity].
  discriminate.
Qed.

(** [handle_list_databases] with patterns configured for databases: of the
    rows that the query returned, the handler returns exactly those whose
    DATABASE_NAME holds none of the patterns, letter case apart. *)
Theorem list_databases_filters
    (arguments : option (gmap string pystr))
    (config : gmap string (list pystr)) (patterns : list pystr)
    (st st' : State) (r : Rows * pystr) :
  execute_query
    (lit "SELECT DATABASE_NAME FROM INFORMATION_SCHEMA.DATABASES") st
  = (Ok r, st') →
  config !! "databases" = Some patterns →
  ∃ output,
    handle_list_databases as_rows lower arguments (Some config) st
    = (Ok output, st')
    ∧ listing_data_id output = snd r
    ∧ ∀ item,
        item ∈ listing_data output
        ↔ item ∈ as_rows (fst r)
          ∧ ∀ p, p ∈ patterns →
              contains (lower (default [] (item !! "DATABASE_NAME")))
                (lower p)
              = false.
Proof.
  intros Hexec Hkey. unfold handle_list_databases. run_M. rewrite Hexec.
  eexists. split; [reflexivity|]. split; [reflexivity|].
  intros item. cbn. now apply filter_excluded_elem.
Qed.

(** [handle_list_schemas] without patterns for schemas (no exclusion
    configuration, no such key, or an empty list): every row that the
    query returned is returned, under the database name as it was given. *)
Theorem list_schemas_without_patterns (a : gmap string pystr)
    (database : pystr) (exclusion : option (gmap string (list pystr)))
    (st st' : State) (r : Rows * pystr) :
  a !! "database" = Some database →
  execute_query (list_schemas_query database) st = (Ok r, st') →
  default [] (default ∅ exclusion !! "schemas") = [] →
  handle_list_schemas as_rows lower (Some a) exclusion st
  = (Ok {| listing_data_id := snd r;
           listing_database := Some database;
           listing_schema := None;
           listing_data := as_rows (fst r) |},
     st').
Proof.
  intros Ha Hexec Hnone. unfold handle_list_schemas.
  rewrite (missing_argument_present _ _ _ Ha). run_M. cbn. rewrite Ha.
  rewrite Hexec. cbn. now rewrite filter_excluded_none.
Qed.

End ListingProperties.

Lemma describe_table_rejects_short_name_witness :
  @handle_describe_table sim_runtime
    (Some {["table_name" := lit "analytics.events"]}) (sim_state 0)
  = (Raise (ValueError
       (lit "Table name must be fully qualified as 'database.schema.table'")),
     sim_state 0).
Proof.
  apply (@describe_table_rejects_short_name sim_runtime
           {["table_name" := lit "analytics.events"]}
           (lit "analytics.events") (sim_state 0)).
  - vm_compute. reflexivity.
  - vm_compute. lia.
Defined.

Lemma describe_table_uses_three_parts_witness :
  @handle_describe_table sim_runtime
    (Some {["table_name" :=
              lit "raw" ++ dot :: lit "artie" ++ dot :: lit "users"
                ++ lit ".id"]})
    (sim_state 0)
  = match @execute_query sim_runtime
            (describe_table_query (upper (lit "raw")) (upper (lit "artie"))
               (upper (lit "users")))
            (sim_state 0) with
    | (Ok r, st') =>
        (Ok {| out_data_id := snd r;
               out_database := Some (upper (lit "raw"));
               out_schema := Some (upper (lit "artie"));
               out_table := Some (upper (lit "users"));
               out_data := fst r |}, st')
    | (Raise e, st') => (Raise e, st')
    end.
Proof.
  apply (@describe_table_uses_three_parts sim_runtime
           {["table_name" :=
               lit "raw" ++ dot :: lit "artie" ++ dot :: lit "users"
                 ++ lit ".id"]}
           (lit "raw") (lit "artie") (lit "users") (lit ".id")
           (sim_state 0)).
  - vm_compute. reflexivity.
  - reflexivity.
  - reflexivity.
  - reflexivity.
  - reflexivity.
Defined.

Lemma call_tool_unregistered_witness :
  @handle_call_tool sim_runtime
    (λ _ _, ret [TextContent (lit "answer")]) true [] guard_detector
    (lit "write_query") (Some {["query" := lit "DROP TABLE x"]})
    (sim_state 0)
  = (Ok [TextContent
           (if bool_decide (lit "write_query" ∈ ([] : list pystr))
            then lit "Tool " ++ lit "write_query"
                 ++ lit " is excluded from this data connection"
            else lit "Error: " ++ (lit "Unknown tool: " ++ lit "write_query"))],
     sim_state 0).
Proof.
  apply (@call_tool_unregistered sim_runtime
           (λ _ _, ret [TextContent (lit "answer")]) true [] guard_detector
           (lit "write_query") (Some {["query" := lit "DROP TABLE x"]})
           (sim_state 0)).
  apply (bool_decide_unpack _). vm_compute. exact I.
Defined.

Lemma call_tool_read_query_blocks_write_keyword_witness :
  snd (@handle_call_tool sim_runtime
         (λ _ _, ret [TextContent (lit "answer")]) true []
         (λ _, no_write) (lit "read_query")
         (Some {["query" := lit " " ++ lit "truncate" ++ lit " table t"]})
         live_state)
  = live_state
  ∧ ∃ text,
      fst (@handle_call_tool sim_runtime
             (λ _ _, ret [TextContent (lit "answer")]) true []
             (λ _, no_write) (lit "read_query")
             (Some {["query" := lit " " ++ lit "truncate" ++ lit " table t"]})
             live_state)
      = Ok [TextContent text].
Proof.
  apply (@call_tool_read_query_blocks_write_keyword sim_runtime
           (λ _ _, ret [TextContent (lit "answer")]) true []
           (λ _, no_write)
           {["query" := lit " " ++ lit "truncate" ++ lit " table t"]}
           (lit " ") (lit "truncate") (lit " table t") live_state).
  - vm_compute. reflexivity.
  - reflexivity.
  - reflexivity.
  - reflexivity.
  - apply is_write_keyword_true. vm_compute. reflexivity.
Defined.

Lemma call_tool_health_check_witness :
  @handle_call_tool sim_runtime
    (λ _ _, ret [TextContent (lit "answer")]) false [lit "read_query"]
    guard_detector (lit "health_check") None live_state
  = (Ok [TextContent
           (lit "Error: "
              ++ lit "object list can't be used in 'await' expression")],
     live_state).
Proof.
  apply (@call_tool_health_check sim_runtime
           (λ _ _, ret [TextContent (lit "answer")]) false
           [lit "read_query"] guard_detector None live_state).
  apply (bool_decide_unpack _). vm_compute. exact I.
Defined.

Lemma list_databases_filters_witness :
  ∃ output,
    @handle_list_databases catalog_runtime (λ rows, rows) ascii_lower None
      (Some {["databases" := [lit "Sample"]]}) catalog_state
    = (Ok output,
       snd (@execute_query catalog_runtime
              (lit "SELECT DATABASE_NAME FROM INFORMATION_SCHEMA.DATABASES")
              catalog_state))
    ∧ listing_data_id output = lit "00000000-0000-4000-8000-000000000000"
    ∧ ∀ item,
        item ∈ listing_data output
        ↔ item ∈ [ {["DATABASE_NAME" := lit "ANALYTICS"]};
                   {["DATABASE_NAME" := lit "SNOWFLAKE_SAMPLE_DATA"]} ]
          ∧ ∀ p, p ∈ [lit "Sample"] →
              contains
                (ascii_lower (default [] (item !! "DATABASE_NAME")))
                (ascii_lower p)
              = false.
Proof.
  apply (@list_databases_filters catalog_runtime (λ rows, rows) ascii_lower
           None {["databases" := [lit "Sample"]]} [lit "Sample"]
           catalog_state
           (snd (@execute_query catalog_runtime
                   (lit "SELECT DATABASE_NAME FROM INFORMATION_SCHEMA.DATABASES")
                   catalog_state))
           ([ {["DATABASE_NAME" := lit "ANALYTICS"]};
              {["DATABASE_NAME" := lit "SNOWFLAKE_SAMPLE_DATA"]} ],
            lit "00000000-0000-4000-8000-000000000000")).
  - vm_compute. reflexivity.
  - vm_compute. reflexivity.
Defined.

Lemma list_schemas_without_patterns_witness :
  @handle_list_schemas catalog_runtime (λ rows, rows) ascii_lower
    (Some {["database" := lit "analytics"]})
    (Some {["databases" := [lit "Sample"]]}) catalog_state
  = (Ok {| listing_data_id := lit "00000000-0000-4000-8000-000000000000";
           listing_database := Some (lit "analytics");
           listing_schema := None;
           listing_data :=
             [ {["DATABASE_NAME" := lit "ANALYTICS"]};
               {["DATABASE_NAME" := lit "SNOWFLAKE_SAMPLE_DATA"]} ] |},
     snd (@execute_query catalog_runtime
            (list_schemas_query (lit "analytics")) catalog_state)).
Proof.
  apply (@list_schemas_without_patterns catalog_runtime (λ rows, rows)
           ascii_lower {["database" := lit "analytics"]} (lit "analytics")
           (Some {["databases" := [lit "Sample"]]}) catalog_state
           (snd (@execute_query catalog_runtime
                   (list_schemas_query (lit "analytics")) catalog_state))
           ([ {["DATABASE_NAME" := lit "ANALYTICS"]};
              {["DATABASE_NAME" := lit "SNOWFLAKE_SAMPLE_DATA"]} ],
            lit "00000000-0000-4000-8000-000000000000")).
  - vm_compute. reflexivity.
  - vm_compute. reflexivity.
  - vm_compute. reflexivity.
Defined.
